(** * Reservation calendar and status pipeline: a shallow embedding

  The development follows four source files of the admin panel:
  - [components/admin/ReservationCalendar.tsx]: the per-equipment,
    per-day occupancy grid of one month;
  - the pipeline board ([Pipeline] component): status columns, drag and
    drop handlers, change notifications;
  - [components/CustomerDetailsView.tsx]: the status buttons and the
    comments of one reservation;
  - [components/AdminLogin.tsx]: the lockout of the login form.

  Conventions of the embedding.
  - A JavaScript [Date] is its time value, an integer number of
    milliseconds since the epoch ([Z]).  The getters follow the
    day-number algorithms of ECMAScript (sec. 21.4.1); the local time
    zone is taken to be UTC, so [LocalTime] is the identity.  Invalid
    dates (NaN) and [TimeClip] are outside the model.
  - Date strings received from the database ([start_date], [end_date])
    appear already parsed, as time values.
  - Numbers that the code only uses as integers are [Z]; the quotient
    under [Math.ceil] and [Math.floor] is taken exactly.
  - A string is the bytes of its UTF-8 encoding; what the code does by
    UTF-16 code unit goes through [JSString].
  - Each reading of the clock ([Date.now()]) is an argument of its own.
  - An [async] handler is cut at its [await]s: what runs up to the
    first [await] is one function, what runs when the awaited call
    settles is another, and the settled value is an argument. *)

From Stdlib Require Import ZArith List String Ascii Bool Lia DecimalString.
Import ListNotations.
Open Scope string_scope.
Open Scope Z_scope.

(** ** The part of [Date] the components use *)

Module JSDate.

Definition msPerDay : Z := 86400000.

Definition Day (t : Z) : Z := t / msPerDay.
Definition TimeWithinDay (t : Z) : Z := t mod msPerDay.

Definition DaysInYear (y : Z) : Z :=
  if negb (y mod 4 =? 0) then 365
  else if negb (y mod 100 =? 0) then 366
  else if negb (y mod 400 =? 0) then 365
  else 366.

Definition DayFromYear (y : Z) : Z :=
  365 * (y - 1970) + (y - 1969) / 4 - (y - 1901) / 100 + (y - 1601) / 400.

(** "The largest integer y such that DayFromYear(y) <= d": an estimate
    from the mean length of a year, corrected by at most one year
    (lemma [YearFromDay_spec] below). *)
Definition YearFromDay (d : Z) : Z :=
  let y0 := 1970 + (400 * d) / 146097 in
  if d <? DayFromYear y0 then y0 - 1
  else if DayFromYear (y0 + 1) <=? d then y0 + 1
  else y0.

Definition YearFromTime (t : Z) : Z := YearFromDay (Day t).

Definition InLeapYear (t : Z) : Z :=
  if DaysInYear (YearFromTime t) =? 366 then 1 else 0.

Definition DayWithinYear (t : Z) : Z := Day t - DayFromYear (YearFromTime t).

Definition MonthFromTime (t : Z) : Z :=
  let d := DayWithinYear t in
  let L := InLeapYear t in
  if d <? 31 then 0
  else if d <? 59 + L then 1
  else if d <? 90 + L then 2
  else if d <? 120 + L then 3
  else if d <? 151 + L then 4
  else if d <? 181 + L then 5
  else if d <? 212 + L then 6
  else if d <? 243 + L then 7
  else if d <? 273 + L then 8
  else if d <? 304 + L then 9
  else if d <? 334 + L then 10
  else 11.

Definition DateFromTime (t : Z) : Z :=
  let d := DayWithinYear t in
  let L := InLeapYear t in
  match MonthFromTime t with
  | 0 => d + 1
  | 1 => d - 30
  | 2 => d - 58 - L
  | 3 => d - 89 - L
  | 4 => d - 119 - L
  | 5 => d - 150 - L
  | 6 => d - 180 - L
  | 7 => d - 211 - L
  | 8 => d - 242 - L
  | 9 => d - 272 - L
  | 10 => d - 303 - L
  | _ => d - 333 - L
  end.

(** Day within the year on which month [mn] (0..11) begins. *)
Definition MonthStartDay (mn L : Z) : Z :=
  match mn with
  | 0 => 0
  | 1 => 31
  | 2 => 59 + L
  | 3 => 90 + L
  | 4 => 120 + L
  | 5 => 151 + L
  | 6 => 181 + L
  | 7 => 212 + L
  | 8 => 243 + L
  | 9 => 273 + L
  | 10 => 304 + L
  | _ => 334 + L
  end.

(** [MakeDay(year, month, date)]: the day number of the first of month
    [month mod 12] in year [year + floor(month / 12)], plus [date - 1]. *)
Definition MakeDay (year month date : Z) : Z :=
  let ym := year + month / 12 in
  let mn := month mod 12 in
  let L := if DaysInYear ym =? 366 then 1 else 0 in
  DayFromYear ym + MonthStartDay mn L + date - 1.

Definition MakeDate (day time : Z) : Z := day * msPerDay + time.

(** Length of month [m] (0..11) of year [y]; not a function of the
    source, it names what [new Date(y, m + 1, 0).getDate()] returns. *)
Definition DaysInMonth (y m : Z) : Z :=
  match m with
  | 1 => if DaysInYear y =? 366 then 29 else 28
  | 3 | 5 | 8 | 10 => 30
  | _ => 31
  end.

(** The year the [Date] constructor takes for [year]. *)
Definition fullYear (year : Z) : Z :=
  if (0 <=? year) && (year <=? 99) then 1900 + year else year.

(** [new Date(year, month, date)]: years 0..99 mean 1900..1999. *)
Definition mkDate (year month date : Z) : Z :=
  let yr := fullYear year in
  MakeDate (MakeDay yr month date) 0.

Definition getTime (t : Z) : Z := t.
Definition getFullYear (t : Z) : Z := YearFromTime t.
Definition getMonth (t : Z) : Z := MonthFromTime t.
Definition getDate (t : Z) : Z := DateFromTime t.

(** [d.setMonth(month)]: same year, day of month and time of day. *)
Definition setMonth (t month : Z) : Z :=
  MakeDate (MakeDay (YearFromTime t) month (DateFromTime t)) (TimeWithinDay t).

End JSDate.

(** ** Strings *)

(** What a template literal prints for an integer. *)
Definition show (n : Z) : string := NilZero.string_of_int (Z.to_int n).

Definition nl : string := String (ascii_of_nat 10) "".

(** A JavaScript string is a sequence of UTF-16 code units, and indexing
    and [substring] count code units.  A string is written here as the
    bytes of its UTF-8 encoding, so that the literals of the source are
    the literals of this file: a character of the basic plane takes one
    to three bytes and is one code unit; a character beyond it takes four
    bytes and is two code units, a surrogate pair.  A surrogate on its
    own, which indexing can produce, is written as the three bytes of its
    own number.  Bytes that begin no well-formed sequence are read as one
    code unit each. *)
Module JSString.

Definition byte (c : ascii) : Z := Z.of_N (N_of_ascii c).
Definition char (n : Z) : ascii := ascii_of_N (Z.to_N n).

(** The six payload bits of a continuation byte. *)
Definition low6 (c : ascii) : Z := Z.land (byte c) 63.

Definition isHighSurrogate (u : Z) : bool := (55296 <=? u) && (u <? 56320).
Definition isLowSurrogate (u : Z) : bool := (56320 <=? u) && (u <? 57344).

(** The code units of a string. *)
Fixpoint toUnits (s : string) : list Z :=
  match s with
  | EmptyString => []
  | String c0 s1 =>
      let b0 := byte c0 in
      match s1 with
      | String c1 s2 =>
          if b0 <? 192 then b0 :: toUnits s1
          else if b0 <? 224 then
            Z.lor (Z.shiftl (Z.land b0 31) 6) (low6 c1) :: toUnits s2
          else
            match s2 with
            | String c2 s3 =>
                if b0 <? 240 then
                  Z.lor (Z.shiftl (Z.land b0 15) 12)
                        (Z.lor (Z.shiftl (low6 c1) 6) (low6 c2)) :: toUnits s3
                else
                  match s3 with
                  | String c3 s4 =>
                      let cp := Z.lor (Z.shiftl (Z.land b0 7) 18)
                                  (Z.lor (Z.shiftl (low6 c1) 12)
                                     (Z.lor (Z.shiftl (low6 c2) 6) (low6 c3))) in
                      let v := cp - 65536 in
                      (55296 + Z.shiftr v 10) :: (56320 + Z.land v 1023) :: toUnits s4
                  | EmptyString => b0 :: toUnits s1
                  end
            | EmptyString => b0 :: toUnits s1
            end
      | EmptyString => [b0]
      end
  end.

Definition encode2 (u : Z) : string :=
  String (char (Z.lor 192 (Z.shiftr u 6)))
    (String (char (Z.lor 128 (Z.land u 63))) "").
Definition encode3 (u : Z) : string :=
  String (char (Z.lor 224 (Z.shiftr u 12)))
    (String (char (Z.lor 128 (Z.land (Z.shiftr u 6) 63)))
       (String (char (Z.lor 128 (Z.land u 63))) "")).
Definition encode4 (cp : Z) : string :=
  String (char (Z.lor 240 (Z.shiftr cp 18)))
    (String (char (Z.lor 128 (Z.land (Z.shiftr cp 12) 63)))
       (String (char (Z.lor 128 (Z.land (Z.shiftr cp 6) 63)))
          (String (char (Z.lor 128 (Z.land cp 63))) ""))).

(** The string of a sequence of code units. *)
Fixpoint ofUnits (us : list Z) : string :=
  match us with
  | [] => ""
  | u :: rest =>
      if u <? 128 then String (char u) (ofUnits rest)
      else if u <? 2048 then encode2 u ++ ofUnits rest
      else
        match rest with
        | l :: rest' =>
            if isHighSurrogate u && isLowSurrogate l then
              encode4 (65536 + Z.shiftl (u - 55296) 10 + (l - 56320)) ++ ofUnits rest'
            else encode3 u ++ ofUnits rest
        | [] => encode3 u
        end
  end.

(** [s.substring(0, n)] *)
Definition prefix (n : nat) (s : string) : string :=
  ofUnits (firstn n (toUnits s)).

End JSString.

(** [s[0]] inside a template literal: the first code unit, or the text
    [undefined] when the string is empty. *)
Definition firstChar (s : string) : string :=
  match JSString.toUnits s with
  | [] => "undefined"
  | u :: _ => JSString.ofUnits [u]
  end.

(** [Math.ceil(a / b)] for an integer [a] and a positive integer [b]. *)
Definition ceilDiv (a b : Z) : Z := - ((- a) / b).

(** ** What a call to the persistence collaborator settles to *)

Module Supabase.

(** A fulfilled call carries [{ data, error }]. *)
Record Response (A : Type) := { data : option A; error : option string }.
Arguments data {A}.
Arguments error {A}.

(** The promise of a call is fulfilled with a response or rejected. *)
Inductive Settled (A : Type) :=
| Fulfilled (r : Response A)
| Rejected.
Arguments Fulfilled {A}.
Arguments Rejected {A}.

End Supabase.

(** ** ReservationCalendar.tsx *)

Module Calendar.
Import JSDate Supabase.

Record Equipment := { eq_id : string; eq_name : string }.

Record Customer := { first_name : string; last_name : string }.

Record ReservationItem := { equipment_id : string }.

(** A row of the [reservations] query.  The [Reservation] interface of
    the source omits [reservation_items], which the query selects and
    the grid reads. *)
Record Reservation := {
  id : string;
  customer : Customer;
  start_date : Z;
  end_date : Z;
  start_time : string;
  end_time : string;
  status : string;
  reservation_items : list ReservationItem
}.

(** *** Component state and the state-passing style of its handlers *)

Record State := {
  equipment : list Equipment;
  reservations : list Reservation;
  currentDate : Z;
  loading : bool
}.

Definition initialState (now : Z) : State :=
  {| equipment := []; reservations := []; currentDate := now; loading := true |}.

Definition M (A : Type) : Type := State -> A * State.

Definition ret {A} (a : A) : M A := fun s => (a, s).
Definition bind {A B} (m : M A) (k : A -> M B) : M B :=
  fun s => let (a, s') := m s in k a s'.
Definition gets {A} (f : State -> A) : M A := fun s => (f s, s).

Definition setEquipment (e : list Equipment) : M unit := fun s =>
  (tt, {| equipment := e; reservations := reservations s;
          currentDate := currentDate s; loading := loading s |}).
Definition setReservations (r : list Reservation) : M unit := fun s =>
  (tt, {| equipment := equipment s; reservations := r;
          currentDate := currentDate s; loading := loading s |}).
Definition setCurrentDate (d : Z) : M unit := fun s =>
  (tt, {| equipment := equipment s; reservations := reservations s;
          currentDate := d; loading := loading s |}).
Definition setLoading (b : bool) : M unit := fun s =>
  (tt, {| equipment := equipment s; reservations := reservations s;
          currentDate := currentDate s; loading := b |}).

Declare Scope cal_scope.
Delimit Scope cal_scope with cal.
Notation "x <- m ;; k" := (bind m (fun x => k))
  (at level 61, m at next level, right associativity) : cal_scope.
Notation "m ;;; k" := (bind m (fun _ => k))
  (at level 61, right associativity) : cal_scope.
Local Open Scope cal_scope.

(** *** The persistence collaborator *)

(** The rows the [reservations] query of [loadReservations] selects
    from table [db]:
    [.gte('start_date', from).lte('end_date', to).neq('status', 'cancelled')],
    with [reservation_items!inner] keeping only reservations that have
    an item. *)
Definition selectReservations (db : list Reservation) (from to : Z)
  : list Reservation :=
  filter (fun r =>
            (from <=? start_date r) && (end_date r <=? to)
            && negb (status r =? "cancelled")%string
            && negb (match reservation_items r with [] => true | _ => false end))
         db.

Definition startOfMonth (cd : Z) : Z := mkDate (getFullYear cd) (getMonth cd) 1.
Definition endOfMonth (cd : Z) : Z := mkDate (getFullYear cd) (getMonth cd + 1) 0.

(** [loadEquipment], after its query settled with [resp]. *)
Definition loadEquipment (resp : Response (list Equipment)) : M unit :=
  match error resp with
  | Some _ => ret tt
  | None => setEquipment (match data resp with Some d => d | None => [] end)
  end.

(** [loadReservations], after its query settled with [resp]. *)
Definition loadReservations (resp : Response (list Reservation)) : M unit :=
  match error resp with
  | Some _ => ret tt
  | None =>
      setReservations (match data resp with Some d => d | None => [] end) ;;;
      setLoading false
  end.

(** The answer of the collaborator holding table [db] to the query
    [loadReservations] sends in state [s]; [fails] makes it an error. *)
Definition reservationsResponse (db : list Reservation) (fails : bool) (s : State)
  : Response (list Reservation) :=
  if fails then {| data := None; error := Some "error" |}
  else {| data := Some (selectReservations db (startOfMonth (currentDate s))
                                              (endOfMonth (currentDate s)));
          error := None |}.

(** The two month buttons:
    [setCurrentDate(new Date(currentDate.setMonth(currentDate.getMonth() -/+ 1)))]. *)
Definition prevMonth : M unit :=
  cd <- gets currentDate ;; setCurrentDate (setMonth cd (getMonth cd - 1)).
Definition nextMonth : M unit :=
  cd <- gets currentDate ;; setCurrentDate (setMonth cd (getMonth cd + 1)).

(** *** Pure helpers of the component *)

Definition getDaysInMonth (cd : Z) : Z :=
  getDate (mkDate (getFullYear cd) (getMonth cd + 1) 0).

Record Span := { startDay : Z; endDay : Z; span : Z }.

Definition getReservationSpan (reservation : Reservation) (monthStart monthEnd : Z)
  : Span :=
  let start := start_date reservation in
  let end_ := end_date reservation in
  let startDay := if start <? monthStart then 1 else getDate start in
  let endDay := if monthEnd <? end_ then getDate monthEnd else getDate end_ in
  {| startDay := startDay; endDay := endDay; span := endDay - startDay + 1 |}.

Definition formatDateTime (date : Z) (time : string) : string :=
  show (getDate date) ++ "." ++ show (getMonth date + 1) ++ " " ++ time.

Definition formatCustomerName (firstName lastName : string) : string :=
  lastName ++ " " ++ firstName.

Definition formatShortCell (lastName : string) (date : Z) : string :=
  JSString.prefix 4 lastName ++ nl ++ show (getDate date).

Definition elapsedDays (startDate endDate : Z) : Z :=
  ceilDiv (getTime endDate - getTime startDate) (1000 * 60 * 60 * 24).

Definition formatDateRange (startDate endDate : Z) (startTime endTime : string)
  : string :=
  let days := elapsedDays startDate endDate in
  if 4 <=? days then
    show (getDate startDate) ++ "." ++ show (getMonth startDate + 1) ++ " " ++ startTime
    ++ " - "
    ++ show (getDate endDate) ++ "." ++ show (getMonth endDate + 1) ++ " " ++ endTime
  else
    show (getDate startDate) ++ "-" ++ show (getDate endDate).

Definition getReservationContent (reservation : Reservation) (cellWidth : Z)
                                 (isMultiDay : bool) : string :=
  let lastName := last_name (customer reservation) in
  let firstName := first_name (customer reservation) in
  let startDate := start_date reservation in
  let endDate := end_date reservation in
  let days := elapsedDays startDate endDate in
  if 4 <=? days then
    let customerName := formatCustomerName firstName lastName in
    let dateRange := formatDateRange (start_date reservation) (end_date reservation)
                                     (start_time reservation) (end_time reservation) in
    customerName ++ nl ++ dateRange
  else if (2 <=? days) && (days <=? 3) then
    let dateRange := formatDateRange (start_date reservation) (end_date reservation)
                                     (start_time reservation) (end_time reservation) in
    let customerName :=
      if cellWidth <? 100 then lastName ++ " " ++ firstChar firstName ++ "."
      else lastName ++ " " ++ firstName in
    customerName ++ nl ++ dateRange
  else
    lastName ++ nl ++ show (getDate startDate).

(** *** The grid *)

(** What the body of a row produces for one [dayIndex]: the merged
    cell of a reservation ([gridColumn: span n], with its text), [null]
    for a day covered by a merged cell, or an empty bordered cell. *)
Inductive Cell :=
| SpanCell (reservation : Reservation) (span : Z) (content : string) (isMultiDay : bool)
| NullCell
| EmptyCell.

(** [r.reservation_items.some(ri => ri.equipment_id === item.id)] *)
Definition includesLine (r : Reservation) (item : Equipment) : bool :=
  existsb (fun ri => (equipment_id ri =? eq_id item)%string) (reservation_items r).

Definition itemReservations (rs : list Reservation) (item : Equipment)
  : list Reservation :=
  filter (fun r => includesLine r item) rs.

(** The test of the [find]: [dayIndex + 1 >= startDay && dayIndex + 1 <= endDay]. *)
Definition covers (r : Reservation) (monthStart monthEnd : Z) (dayIndex : Z) : bool :=
  let sp := getReservationSpan r monthStart monthEnd in
  (startDay sp <=? dayIndex + 1) && (dayIndex + 1 <=? endDay sp).

Definition findReservation (rs : list Reservation) (monthStart monthEnd : Z)
                           (dayIndex : Z) : option Reservation :=
  find (fun r => covers r monthStart monthEnd dayIndex) rs.

Definition renderCell (rs : list Reservation) (cd : Z) (item : Equipment)
                      (dayIndex : Z) : Cell :=
  let itemRs := itemReservations rs item in
  let monthStart := mkDate (getFullYear cd) (getMonth cd) 1 in
  let monthEnd := mkDate (getFullYear cd) (getMonth cd + 1) 0 in
  match findReservation itemRs monthStart monthEnd dayIndex with
  | Some reservation =>
      let sp := getReservationSpan reservation monthStart monthEnd in
      let isMultiDay := 1 <? span sp in
      let cellWidth := 1240 / getDaysInMonth cd in
      if dayIndex + 1 =? startDay sp then
        SpanCell reservation (span sp)
                 (getReservationContent reservation cellWidth isMultiDay) isMultiDay
      else NullCell
  | None => EmptyCell
  end.

(** [Array.from({ length: n })] with its indices. *)
Definition indices (n : Z) : list Z := map Z.of_nat (seq 0 (Z.to_nat n)).

Definition renderRow (rs : list Reservation) (cd : Z) (item : Equipment) : list Cell :=
  map (renderCell rs cd item) (indices (getDaysInMonth cd)).

(** The grid part of the component's render, reading the state. *)
Definition renderGrid : M (list (list Cell)) :=
  eqs <- gets equipment ;;
  rs <- gets reservations ;;
  cd <- gets currentDate ;;
  ret (map (renderRow rs cd) eqs).

(** The effect on [currentDate] ran to completion with table [db]. *)
Definition reload (db : list Reservation) (fails : bool) : M unit :=
  fun s => loadReservations (reservationsResponse db fails s) s.

(** What can happen to the mounted calendar. *)
Inductive Event :=
| EquipmentLoaded (resp : Response (list Equipment))
| ReservationsLoaded (db : list Reservation) (fails : bool)
| PrevMonth
| NextMonth.

Definition onEvent (e : Event) : M unit :=
  match e with
  | EquipmentLoaded resp => loadEquipment resp
  | ReservationsLoaded db fails => reload db fails
  | PrevMonth => prevMonth
  | NextMonth => nextMonth
  end.

Definition step (s : State) (e : Event) : State := snd (onEvent e s).

Definition run (s : State) (es : list Event) : State := fold_left step es s.

(** *** Vocabulary of the statements *)

(** The reservations the grid considers for line [item] in the month
    of [cd], when the table holds [db]. *)
Definition considered (db : list Reservation) (cd : Z) (item : Equipment)
  : list Reservation :=
  itemReservations (selectReservations db (startOfMonth cd) (endOfMonth cd)) item.

(** The interval of [r] meets the window [[ws, we]]. *)
Definition intersects (r : Reservation) (ws we : Z) : Prop :=
  start_date r <= we /\ ws <= end_date r.

(** The interval of [r] lies inside the window [[ws, we]]. *)
Definition within (r : Reservation) (ws we : Z) : Prop :=
  ws <= start_date r /\ end_date r <= we.

(** [r] is placed on the row of [item]: it is the reservation found
    for every day of its span. *)
Definition placed (rs : list Reservation) (cd : Z) (item : Equipment)
                  (r : Reservation) : Prop :=
  let sp := getReservationSpan r (startOfMonth cd) (endOfMonth cd) in
  forall dayIndex, startDay sp <= dayIndex + 1 <= endDay sp ->
    findReservation (itemReservations rs item) (startOfMonth cd) (endOfMonth cd)
                    dayIndex = Some r.

(** The reservation a cell shows. *)
Definition cellReservation (c : Cell) : option Reservation :=
  match c with
  | SpanCell r _ _ _ => Some r
  | _ => None
  end.

(** Length of the month on display. *)
Definition monthLength (cd : Z) : Z :=
  DaysInMonth (fullYear (getFullYear cd)) (getMonth cd).

Definition noCancelled (rs : list Reservation) : Prop :=
  Forall (fun r => status r <> "cancelled"%string) rs.

End Calendar.

(** ** The pipeline board *)

Module Pipeline.
Import Supabase.

Record Customer := {
  customer_id : string;
  first_name : string;
  last_name : string;
  email : string;
  phone : string
}.

Record Dates := { start : Z; end_ : Z }.

(** A card of the board; the fields the component only displays
    ([total_price], [items], [history]) are left out. *)
Record Reservation := {
  id : string;
  customer : Customer;
  dates : Dates
}.

(** [reservations] is read with [?.] throughout: it may be missing. *)
Record PipelineColumn := {
  column_id : string;
  title : string;
  reservations : option (list Reservation)
}.

(** The value of the [get_pipeline_data] call. *)
Record PipelineData := { data_columns : option (list PipelineColumn) }.

Record State := {
  columns : list PipelineColumn;
  loading : bool;
  error : option string;
  activeId : option string
}.

Definition initialState : State :=
  {| columns := []; loading := true; error := None; activeId := None |}.

(** The remote calls of the component. *)
Inductive Request :=
| get_pipeline_data
| update_reservation_pipeline_status (p_reservation_id p_new_status : string).

(** Where a suspended handler resumes.  [loadPipelineData] is awaited
    by [handleStatusChange] (nothing follows) and by [handleDragEnd]
    ([setActiveId(null)] follows). *)
Inductive Cont := Finish | ClearActive.
Inductive Awaiting :=
| AwaitUpdate (k : Cont)
| AwaitData (k : Cont).

(** The component together with the calls it has made: [sent] lists
    every call in order, [pending] the calls not yet settled, each
    with the handler suspended on it. *)
Record World := {
  view : State;
  pending : list (Request * Awaiting);
  sent : list Request
}.

Definition initialWorld : World :=
  {| view := initialState; pending := []; sent := [] |}.

Definition P (A : Type) : Type := World -> A * World.

Definition ret {A} (a : A) : P A := fun w => (a, w).
Definition bind {A B} (m : P A) (k : A -> P B) : P B :=
  fun w => let (a, w') := m w in k a w'.
Definition gets {A} (f : State -> A) : P A := fun w => (f (view w), w).
Definition modify (f : State -> State) : P unit := fun w =>
  (tt, {| view := f (view w); pending := pending w; sent := sent w |}).

Declare Scope pipe_scope.
Delimit Scope pipe_scope with pipe.
Notation "x <- m ;; k" := (bind m (fun x => k))
  (at level 61, m at next level, right associativity) : pipe_scope.
Notation "m ;;; k" := (bind m (fun _ => k))
  (at level 61, right associativity) : pipe_scope.
Local Open Scope pipe_scope.

Definition setColumns (c : list PipelineColumn) : P unit :=
  modify (fun s => {| columns := c; loading := loading s;
                      error := error s; activeId := activeId s |}).
Definition setLoading (b : bool) : P unit :=
  modify (fun s => {| columns := columns s; loading := b;
                      error := error s; activeId := activeId s |}).
Definition setError (e : option string) : P unit :=
  modify (fun s => {| columns := columns s; loading := loading s;
                      error := e; activeId := activeId s |}).
Definition setActiveId (a : option string) : P unit :=
  modify (fun s => {| columns := columns s; loading := loading s;
                      error := error s; activeId := a |}).

(** [await supabase.rpc(...)]: the call leaves, the handler suspends. *)
Definition rpc (r : Request) (a : Awaiting) : P unit := fun w =>
  (tt, {| view := view w;
          pending := (pending w ++ [(r, a)])%list;
          sent := (sent w ++ [r])%list |}).

Definition runCont (k : Cont) : P unit :=
  match k with
  | Finish => ret tt
  | ClearActive => setActiveId None
  end.

(** [loadPipelineData] up to its [await]. *)
Definition loadPipelineData (k : Cont) : P unit :=
  setLoading true ;;; rpc get_pipeline_data (AwaitData k).

(** [loadPipelineData] from its [await] on. *)
Definition loadPipelineData_resume (r : Settled PipelineData) : P unit :=
  match r with
  | Fulfilled {| Supabase.data := d; Supabase.error := None |} =>
      match d with
      | Some {| data_columns := Some cols |} => setColumns cols
      | _ => setColumns []
      end
  | _ => setError (Some "Nie udało się załadować danych")
  end ;;;
  setLoading false.

Fixpoint findReservation (cols : list PipelineColumn) (rid : string)
  : option Reservation :=
  match cols with
  | [] => None
  | column :: rest =>
      match
        match reservations column with
        | Some rs => find (fun r => (id r =? rid)%string) rs
        | None => None
        end
      with
      | Some reservation => Some reservation
      | None => findReservation rest rid
      end
  end.

Definition handleDragStart (active : string) : P unit :=
  setActiveId (Some active).

(** [handleDragEnd] up to its first [await]; [over] is [None] when the
    card was dropped outside every droppable. *)
Definition handleDragEnd (active : string) (over : option string) : P unit :=
  match over with
  | None => ret tt
  | Some newStatus =>
      cols <- gets columns ;;
      match findReservation cols active with
      | Some activeReservation =>
          if negb (id activeReservation =? newStatus)%string then
            rpc (update_reservation_pipeline_status (id activeReservation) newStatus)
                (AwaitUpdate ClearActive)
          else setActiveId None
      | None => setActiveId None
      end
  end.

(** [handleStatusChange] up to its first [await]. *)
Definition handleStatusChange (reservationId newStatus : string) : P unit :=
  rpc (update_reservation_pipeline_status reservationId newStatus)
      (AwaitUpdate Finish).

(** Both handlers after [await supabase.rpc('update_...')]: the value
    of the call is not inspected; a rejection lands in [catch]. *)
Definition update_resume (k : Cont) (r : Settled PipelineData) : P unit :=
  match r with
  | Fulfilled _ => loadPipelineData k
  | Rejected => setError (Some "Nie udało się zaktualizować statusu") ;;; runCont k
  end.

Definition resume (a : Awaiting) (r : Settled PipelineData) : P unit :=
  match a with
  | AwaitUpdate k => update_resume k r
  | AwaitData k => loadPipelineData_resume r ;;; runCont k
  end.

(** The [n]-th pending call settles with [r]. *)
Definition settle (n : nat) (r : Settled PipelineData) : P unit := fun w =>
  match nth_error (pending w) n with
  | Some (_, a) =>
      resume a r {| view := view w;
                    pending := (firstn n (pending w) ++ skipn (S n) (pending w))%list;
                    sent := sent w |}
  | None => (tt, w)
  end.

(** What can happen to the mounted component.  [DragStart] and
    [DragEnd] are the two handlers given to [DndContext]; the component
    registers no draggable and no droppable element (cards and columns
    are plain elements), so the library has no occasion to call them, and
    they are here as the functions they are. *)
Inductive Event :=
| Mount
| Notification
| DragStart (active : string)
| DragEnd (active : string) (over : option string)
| StatusButton (reservationId newStatus : string)
| Settle (n : nat) (r : Settled PipelineData).

(** [subscribeToUpdates] registers [() => loadPipelineData()] for every
    change of the [reservations] table. *)
Definition onEvent (e : Event) : P unit :=
  match e with
  | Mount => loadPipelineData Finish
  | Notification => loadPipelineData Finish
  | DragStart active => handleDragStart active
  | DragEnd active over => handleDragEnd active over
  | StatusButton rid st => handleStatusChange rid st
  | Settle n r => settle n r
  end.

Definition step (w : World) (e : Event) : World := snd (onEvent e w).

Definition run (w : World) (es : list Event) : World := fold_left step es w.

(** The status changes of reservation [rid] that are on their way. *)
Definition isUpdateOf (rid : string) (r : Request) : bool :=
  match r with
  | update_reservation_pipeline_status r' _ => (r' =? rid)%string
  | get_pipeline_data => false
  end.

Definition inFlight (rid : string) (w : World) : list Request :=
  filter (isUpdateOf rid) (map fst (pending w)).


(** The columns of a fetched snapshot. *)
Definition snapshotColumns (d : option PipelineData) : list PipelineColumn :=
  match d with
  | Some {| data_columns := Some cols |} => cols
  | _ => []
  end.

End Pipeline.

(** ** CustomerDetailsView.tsx *)

Module CustomerDetails.
Import Supabase.

(** The row of [admin_reservations_view] shown; the fields that are
    only displayed are left out. *)
Record Details := { id : string; status : string }.

Record State := {
  details : option Details;
  loading : bool;
  error : option string;
  submitting : bool
}.

Inductive Request :=
| update_reservation_status (p_reservation_id p_new_status p_comment : string)
| select_details (reservation_id : string).

Inductive Awaiting := AwaitUpdate | AwaitDetails (inStatusChange : bool).

Record World := {
  view : State;
  pending : list (Request * Awaiting);
  sent : list Request
}.

Definition P (A : Type) : Type := World -> A * World.

Definition ret {A} (a : A) : P A := fun w => (a, w).
Definition bind {A B} (m : P A) (k : A -> P B) : P B :=
  fun w => let (a, w') := m w in k a w'.
Definition modify (f : State -> State) : P unit := fun w =>
  (tt, {| view := f (view w); pending := pending w; sent := sent w |}).

Declare Scope det_scope.
Delimit Scope det_scope with det.
Notation "m ;;; k" := (bind m (fun _ => k))
  (at level 61, right associativity) : det_scope.
Local Open Scope det_scope.

Definition setDetails (d : option Details) : P unit :=
  modify (fun s => {| details := d; loading := loading s;
                      error := error s; submitting := submitting s |}).
Definition setLoading (b : bool) : P unit :=
  modify (fun s => {| details := details s; loading := b;
                      error := error s; submitting := submitting s |}).
Definition setError (e : option string) : P unit :=
  modify (fun s => {| details := details s; loading := loading s;
                      error := e; submitting := submitting s |}).
Definition setSubmitting (b : bool) : P unit :=
  modify (fun s => {| details := details s; loading := loading s;
                      error := error s; submitting := b |}).

Definition call (r : Request) (a : Awaiting) : P unit := fun w =>
  (tt, {| view := view w;
          pending := (pending w ++ [(r, a)])%list;
          sent := (sent w ++ [r])%list |}).

(** [handleStatusChange] up to its first [await]; [rid] is the [id] of
    the route. *)
Definition handleStatusChange (rid newStatus : string) : P unit :=
  setSubmitting true ;;;
  call (update_reservation_status rid newStatus ("Status zmieniony na: " ++ newStatus))
       AwaitUpdate.

(** After the update settled: an error in the response or a rejection
    lands in [catch]; [finally] lowers [submitting]. *)
Definition update_resume (rid : string) (r : Settled Details) : P unit :=
  match r with
  | Fulfilled {| Supabase.data := _; Supabase.error := None |} =>
      call (select_details rid) (AwaitDetails true)
  | _ =>
      setError (Some "Nie udało się zaktualizować statusu") ;;;
      setSubmitting false
  end.

(** [loadCustomerDetails] from its [await] on, then the [finally] of
    [handleStatusChange] when that is the caller. *)
Definition details_resume (inStatusChange : bool) (r : Settled Details) : P unit :=
  match r with
  | Fulfilled {| Supabase.data := d; Supabase.error := None |} => setDetails d
  | _ => setError (Some "Nie udało się załadować szczegółów klienta")
  end ;;;
  setLoading false ;;;
  if inStatusChange then setSubmitting false else ret tt.

Definition settle (rid : string) (n : nat) (r : Settled Details) : P unit := fun w =>
  match nth_error (pending w) n with
  | Some (_, a) =>
      let w' := {| view := view w;
                   pending := (firstn n (pending w) ++ skipn (S n) (pending w))%list;
                   sent := sent w |} in
      match a with
      | AwaitUpdate => update_resume rid r w'
      | AwaitDetails b => details_resume b r w'
      end
  | None => (tt, w)
  end.

(** [disabled={submitting || details.status === status.id}] *)
Definition buttonDisabled (s : State) (statusId : string) : bool :=
  submitting s ||
  match details s with
  | Some d => (status d =? statusId)%string
  | None => false
  end.

Definition isUpdate (r : Request) : bool :=
  match r with
  | update_reservation_status _ _ _ => true
  | select_details _ => false
  end.

End CustomerDetails.

(** ** Concrete data for the examples *)

Module CalendarExamples.
Import JSDate Calendar.

Definition line : Equipment := {| eq_id := "e1"; eq_name := "Koparka" |}.

(** The component shows March 2025. *)
Definition march2025 : Z := mkDate 2025 2 10.

Definition booking (i first last : string) (s e : Z) (st : string) : Reservation :=
  {| id := i;
     customer := {| first_name := first; last_name := last |};
     start_date := s; end_date := e;
     start_time := "08:00"; end_time := "16:00";
     status := st;
     reservation_items := [ {| equipment_id := "e1" |} ] |}.

(** 1 to 5 March and 3 to 7 March, on the same line. *)
Definition R1 : Reservation :=
  booking "r1" "Jan" "Nowak" (mkDate 2025 2 1) (mkDate 2025 2 5) "confirmed".
Definition R2 : Reservation :=
  booking "r2" "Ewa" "Lis" (mkDate 2025 2 3) (mkDate 2025 2 7) "confirmed".

(** 14 March only; 14 to 15 March. *)
Definition oneDay : Reservation :=
  booking "r3" "Adam" "Kowalski" (mkDate 2025 2 14) (mkDate 2025 2 14) "pending".
Definition twoDays : Reservation :=
  booking "r4" "Adam" "Kowalski" (mkDate 2025 2 14) (mkDate 2025 2 15) "pending".

(** 27 February to 3 March: begins before the month on display. *)
Definition straddling : Reservation :=
  booking "r5" "Ola" "Maj" (mkDate 2025 1 27) (mkDate 2025 2 3) "confirmed".

Definition cancelled : Reservation :=
  booking "r6" "Ola" "Maj" (mkDate 2025 2 20) (mkDate 2025 2 21) "cancelled".

End CalendarExamples.

Module PipelineExamples.
Import Supabase Pipeline.

Definition card : Reservation :=
  {| id := "r1";
     customer := {| customer_id := "c1"; first_name := "Jan"; last_name := "Nowak";
                    email := "jan@example.com"; phone := "600100200" |};
     dates := {| start := 1740787200000; end_ := 1741132800000 |} |}.

Definition board : list PipelineColumn :=
  [ {| column_id := "pending"; title := "Oczekujace"; reservations := Some [card] |};
    {| column_id := "confirmed"; title := "Potwierdzone"; reservations := Some [] |} ].

(** The board is loaded and nothing is in flight; [r1] is being dragged. *)
Definition boardWorld : World :=
  {| view := {| columns := board; loading := false; error := None;
                activeId := Some "r1" |};
     pending := []; sent := [] |}.

End PipelineExamples.

(** ** More of ReservationCalendar.tsx: the header and the columns *)

Module CalendarView.
Import JSDate Calendar.

(** [d.getDay()]: 0 is Sunday; day number 0 was a Thursday. *)
Definition WeekDay (t : Z) : Z := (Day t + 4) mod 7.
Definition getDay (t : Z) : Z := WeekDay t.

Definition DAYS : list string := ["PON"; "WT"; "ŚR"; "CZW"; "PT"; "SOB"; "NIEDZ"].

(** One cell of [renderHeader]: the day number and
    [DAYS[date.getDay() === 0 ? 6 : date.getDay() - 1]], which is
    [undefined] ([None]) outside the array. *)
Definition headerCell (cd : Z) (day : Z) : Z * option string :=
  let date := mkDate (getFullYear cd) (getMonth cd) day in
  let dayName :=
    nth_error DAYS (Z.to_nat (if getDay date =? 0 then 6 else getDay date - 1)) in
  (day, dayName).

(** [Array.from({ length: getDaysInMonth() }, (_, i) => i + 1)] *)
Definition headerDays (cd : Z) : list Z :=
  map (fun i => i + 1) (indices (getDaysInMonth cd)).

Definition renderHeader (cd : Z) : list (Z * option string) :=
  map (headerCell cd) (headerDays cd).

(** The columns of the CSS grid a cell takes: [gridColumn: span n] for
    a merged cell, none for [null], one for an empty cell. *)
Definition cellColumns (c : Cell) : Z :=
  match c with
  | SpanCell _ n _ _ => n
  | NullCell => 0
  | EmptyCell => 1
  end.

Definition rowColumns (row : list Cell) : Z :=
  fold_right (fun c acc => cellColumns c + acc) 0 row.

(** The month after [m] of year [y], and the month before. *)
Definition monthAfter (y m : Z) : Z * Z := if m =? 11 then (y + 1, 0) else (y, m + 1).
Definition monthBefore (y m : Z) : Z * Z := if m =? 0 then (y - 1, 11) else (y, m - 1).

(** A load of the reservations that succeeded. *)
Definition isSuccessfulLoad (e : Event) : bool :=
  match e with
  | ReservationsLoaded _ fails => negb fails
  | _ => false
  end.

End CalendarView.

(** Sum of [w] over the [k] positions from [p] on. *)
Fixpoint sumFrom (w : nat -> Z) (p k : nat) : Z :=
  match k with
  | O => 0
  | S k' => w p + sumFrom w (S p) k'
  end.

(** ** More of CustomerDetailsView.tsx: the comment form *)

Module Comments.
Import Supabase.

(** A row of [reservation_notes]. *)
Record Note := { content : string; created_at : string }.

(** The state of the view with the two pieces the comment form adds. *)
Record State := {
  base : CustomerDetails.State;
  newComment : string;
  comments : list Note
}.

Inductive Request :=
| insert_note (reservation_id content : string)
| select_notes (reservation_id : string).

Inductive Awaiting := AwaitInsert | AwaitNotes (inSubmit : bool).

Record World := {
  view : State;
  pending : list (Request * Awaiting);
  sent : list Request
}.

Definition P (A : Type) : Type := World -> A * World.

Definition ret {A} (a : A) : P A := fun w => (a, w).
Definition bind {A B} (m : P A) (k : A -> P B) : P B :=
  fun w => let (a, w') := m w in k a w'.
Definition modify (f : State -> State) : P unit := fun w =>
  (tt, {| view := f (view w); pending := pending w; sent := sent w |}).

Declare Scope note_scope.
Delimit Scope note_scope with note.
Notation "m ;;; k" := (bind m (fun _ => k))
  (at level 61, right associativity) : note_scope.
Local Open Scope note_scope.

Definition setNewComment (t : string) : P unit :=
  modify (fun s => {| base := base s; newComment := t; comments := comments s |}).
Definition setComments (c : list Note) : P unit :=
  modify (fun s => {| base := base s; newComment := newComment s; comments := c |}).
Definition setError (e : option string) : P unit :=
  modify (fun s =>
    {| base := {| CustomerDetails.details := CustomerDetails.details (base s);
                  CustomerDetails.loading := CustomerDetails.loading (base s);
                  CustomerDetails.error := e;
                  CustomerDetails.submitting := CustomerDetails.submitting (base s) |};
       newComment := newComment s; comments := comments s |}).
Definition setSubmitting (b : bool) : P unit :=
  modify (fun s =>
    {| base := {| CustomerDetails.details := CustomerDetails.details (base s);
                  CustomerDetails.loading := CustomerDetails.loading (base s);
                  CustomerDetails.error := CustomerDetails.error (base s);
                  CustomerDetails.submitting := b |};
       newComment := newComment s; comments := comments s |}).

Definition call (r : Request) (a : Awaiting) : P unit := fun w =>
  (tt, {| view := view w;
          pending := (pending w ++ [(r, a)])%list;
          sent := (sent w ++ [r])%list |}).





Section WithTrim.
(** [String.prototype.trim] *)
Variable trim : string -> string.

(** [!newComment.trim()] *)
Definition blank (t : string) : bool :=
  match trim t with EmptyString => true | _ => false end.


(** [disabled={submitting || !newComment.trim()}] *)
Definition submitDisabled (s : State) : bool :=
  CustomerDetails.submitting (base s) || blank (newComment s).

End WithTrim.

(** After the insert settled. *)
Definition insert_resume (rid : string) (r : Settled (list Note)) : P unit :=
  match r with
  | Fulfilled {| Supabase.data := _; Supabase.error := None |} =>
      setNewComment "" ;;; call (select_notes rid) (AwaitNotes true)
  | _ =>
      setError (Some "Nie udało się dodać komentarza") ;;;
      setSubmitting false
  end.

(** [loadComments] from its [await] on, then the [finally] of
    [handleCommentSubmit] when that is the caller. *)
Definition notes_resume (inSubmit : bool) (r : Settled (list Note)) : P unit :=
  match r with
  | Fulfilled {| Supabase.data := d; Supabase.error := None |} =>
      setComments (match d with Some l => l | None => [] end)
  | _ => setError (Some "Nie udało się załadować komentarzy")
  end ;;;
  if inSubmit then setSubmitting false else ret tt.

Definition settle (rid : string) (n : nat) (r : Settled (list Note)) : P unit := fun w =>
  match nth_error (pending w) n with
  | Some (_, a) =>
      let w' := {| view := view w;
                   pending := (firstn n (pending w) ++ skipn (S n) (pending w))%list;
                   sent := sent w |} in
      match a with
      | AwaitInsert => insert_resume rid r w'
      | AwaitNotes b => notes_resume b r w'
      end
  | None => (tt, w)
  end.


End Comments.

(** ** AdminLogin.tsx: the lockout *)

Module AdminLogin.

Definition MAX_LOGIN_ATTEMPTS : Z := 5.
Definition LOCKOUT_DURATION : Z := 15 * 60 * 1000.

Record State := {
  error : string;
  isLoading : bool;
  loginAttempts : Z;
  lockoutUntil : option Z
}.

Definition initialState : State :=
  {| error := ""; isLoading := false; loginAttempts := 0; lockoutUntil := None |}.

(** The component, the [adminLoginLockout] item of [localStorage] (the
    number it was written from), the number of sign-in calls made and
    whether [onLogin] was called. *)
Record World := {
  view : State;
  stored : option Z;
  signInCalls : Z;
  loggedIn : bool
}.

Definition initialWorld (stored : option Z) : World :=
  {| view := initialState; stored := stored; signInCalls := 0; loggedIn := false |}.

Definition withView (f : State -> State) (w : World) : World :=
  {| view := f (view w); stored := stored w;
     signInCalls := signInCalls w; loggedIn := loggedIn w |}.
Definition withStored (v : option Z) (w : World) : World :=
  {| view := view w; stored := v;
     signInCalls := signInCalls w; loggedIn := loggedIn w |}.

Definition setError (e : string) : World -> World :=
  withView (fun s => {| error := e; isLoading := isLoading s;
                        loginAttempts := loginAttempts s;
                        lockoutUntil := lockoutUntil s |}).
Definition setIsLoading (b : bool) : World -> World :=
  withView (fun s => {| error := error s; isLoading := b;
                        loginAttempts := loginAttempts s;
                        lockoutUntil := lockoutUntil s |}).
Definition setLoginAttempts (n : Z) : World -> World :=
  withView (fun s => {| error := error s; isLoading := isLoading s;
                        loginAttempts := n;
                        lockoutUntil := lockoutUntil s |}).
Definition setLockoutUntil (l : option Z) : World -> World :=
  withView (fun s => {| error := error s; isLoading := isLoading s;
                        loginAttempts := loginAttempts s;
                        lockoutUntil := l |}).

(** The effect run on mount, at time [now]. *)
Definition mount (now : Z) (w : World) : World :=
  match stored w with
  | Some lockoutTime =>
      if now <? lockoutTime then setLockoutUntil (Some lockoutTime) w
      else setLoginAttempts 0 (withStored None w)
  | None => w
  end.

(** [handleLoginFailure], reading the [loginAttempts] of the render the
    handler belongs to. *)
Definition handleLoginFailure (attempts now : Z) (w : World) : World :=
  let newAttempts := attempts + 1 in
  let w := setLoginAttempts newAttempts w in
  if MAX_LOGIN_ATTEMPTS <=? newAttempts then
    let lockoutTime := now + LOCKOUT_DURATION in
    withStored (Some lockoutTime) (setLockoutUntil (Some lockoutTime) w)
  else w.

(** [lockoutUntil && lockoutUntil > Date.now()], the clock showing [now] *)
Definition locked (now : Z) (s : State) : bool :=
  match lockoutUntil s with
  | Some l => negb (l =? 0) && (now <? l)
  | None => false
  end.

(** [Math.ceil((lockoutUntil - Date.now()) / 60000)], the clock showing
    [now]. *)
Definition minutesLeft (now : Z) (s : State) : Z :=
  match lockoutUntil s with
  | Some l => ceilDiv (l - now) 60000
  | None => 0
  end.

(** How an attempt that reached the server ends: signed in as an
    administrator, with the audit record written or not; refused
    credentials; not an administrator; any other error. *)
Inductive Outcome :=
| SignedIn
| AuditFailed
| InvalidCredentials
| NotAdmin
| OtherError.

Definition failureMessage (o : Outcome) : string :=
  match o with
  | InvalidCredentials => "Nieprawidłowe dane logowania"
  | NotAdmin => "Brak uprawnień administratora"
  | _ => "Wystąpił nieoczekiwany błąd"
  end.

(** [handleSubmit] with outcome [o].  The clock is read up to three
    times: [tCheck] by the test of the lockout, [tMinutes] by the
    computation of the minutes left when that test holds, and [tSettle]
    by [handleLoginFailure] once the attempt was refused. *)
Definition handleSubmit (tCheck tMinutes tSettle : Z) (o : Outcome) (w : World)
  : World :=
  let attempts := loginAttempts (view w) in
  let w := setError "" w in
  if locked tCheck (view w) then
    setError ("Zbyt wiele nieudanych prób. Spróbuj ponownie za "
              ++ show (minutesLeft tMinutes (view w)) ++ " minut.") w
  else
    let w := setIsLoading true w in
    let w := {| view := view w; stored := stored w;
                signInCalls := signInCalls w + 1; loggedIn := loggedIn w |} in
    let w :=
      match o with
      | SignedIn =>
          let w := withStored None (setLoginAttempts 0 w) in
          {| view := view w; stored := stored w;
             signInCalls := signInCalls w; loggedIn := true |}
      | AuditFailed =>
          let w := withStored None (setLoginAttempts 0 w) in
          handleLoginFailure attempts tSettle (setError (failureMessage o) w)
      | _ => handleLoginFailure attempts tSettle (setError (failureMessage o) w)
      end in
    setIsLoading false w.

Definition failing (o : Outcome) : bool :=
  match o with SignedIn => false | _ => true end.

(** Attempts one after the other: the three readings of the clock and
    the outcome. *)
Definition attempts (w : World) (l : list (Z * Z * Z * Outcome)) : World :=
  fold_left (fun w a => let '(t1, t2, t3, o) := a in handleSubmit t1 t2 t3 o w) l w.

End AdminLogin.

(** ** More concrete data for the examples *)

Module MoreExamples.
Import JSDate Calendar CalendarExamples.

(** 10 to 12 February: over before the month on display begins. *)
Definition february : Reservation :=
  booking "r8" "Ola" "Maj" (mkDate 2025 1 10) (mkDate 2025 1 12) "confirmed".

(** 14 March 08:00 to 15 March 16:00. *)
Definition timed : Reservation :=
  booking "r9" "Adam" "Kowalski"
          (mkDate 2025 2 14 + 8 * 3600000) (mkDate 2025 2 15 + 16 * 3600000) "pending".

(** The calendar showing the month of [cd]. *)
Definition showing (cd : Z) : State :=
  {| equipment := [line]; reservations := [R1]; currentDate := cd; loading := false |}.

(** 31 January 2025, 10:30. *)
Definition jan31 : Z := mkDate 2025 0 31 + 37800000.

(** The board after [confirmed] was pressed for [r1], and after [r1]
    was dropped on [confirmed]. *)
Definition pressedWorld : Pipeline.World :=
  Pipeline.step PipelineExamples.boardWorld (Pipeline.StatusButton "r1" "confirmed").
Definition droppedWorld : Pipeline.World :=
  Pipeline.step PipelineExamples.boardWorld (Pipeline.DragEnd "r1" (Some "confirmed")).



(** The login form after four failures, and locked until [l]. *)
Definition fourFailures : AdminLogin.World :=
  {| AdminLogin.view :=
       {| AdminLogin.error := ""; AdminLogin.isLoading := false;
          AdminLogin.loginAttempts := 4; AdminLogin.lockoutUntil := None |};
     AdminLogin.stored := None;
     AdminLogin.signInCalls := 4;
     AdminLogin.loggedIn := false |}.
Definition lockedUntil (l : Z) : AdminLogin.World :=
  {| AdminLogin.view :=
       {| AdminLogin.error := ""; AdminLogin.isLoading := false;
          AdminLogin.loginAttempts := 5; AdminLogin.lockoutUntil := Some l |};
     AdminLogin.stored := Some l;
     AdminLogin.signInCalls := 5;
     AdminLogin.loggedIn := false |}.

End MoreExamples.

(** Conversion unfolds the thin wrappers first and the calendar
  arithmetic last. *)
Strategy expand [Calendar.getDaysInMonth Calendar.startOfMonth Calendar.endOfMonth
               JSDate.getDate JSDate.getMonth JSDate.getFullYear JSDate.getTime
               JSDate.mkDate JSDate.MakeDate].
Strategy 100 [JSDate.YearFromDay JSDate.DayFromYear JSDate.DaysInYear
            JSDate.MonthFromTime JSDate.DateFromTime JSDate.MakeDay JSDate.Day
            JSDate.DayWithinYear JSDate.InLeapYear JSDate.YearFromTime
            JSDate.fullYear JSDate.TimeWithinDay JSDate.MonthStartDay
            JSDate.DaysInMonth].
Strategy 100 [CalendarView.WeekDay].
Strategy expand [CalendarView.getDay].

(** * Facts *)

Ltac divmod := Z.div_mod_to_equations; lia.

(** ** The calendar of [Date] *)

Section DateFacts.
Import JSDate.

Lemma DaysInYear_cases y : DaysInYear y = 365 \/ DaysInYear y = 366.
Proof. unfold DaysInYear. repeat destruct (negb _); auto. Qed.

Lemma DayFromYear_succ y : DayFromYear (y + 1) = DayFromYear y + DaysInYear y.
Proof.
  unfold DayFromYear, DaysInYear.
  assert (H4 : (y + 1 - 1969) / 4 = (y - 1969) / 4 + (if y mod 4 =? 0 then 1 else 0)).
  { destruct (Z.eqb_spec (y mod 4) 0); divmod. }
  assert (H100 : (y + 1 - 1901) / 100
                 = (y - 1901) / 100 + (if y mod 100 =? 0 then 1 else 0)).
  { destruct (Z.eqb_spec (y mod 100) 0); divmod. }
  assert (H400 : (y + 1 - 1601) / 400
                 = (y - 1601) / 400 + (if y mod 400 =? 0 then 1 else 0)).
  { destruct (Z.eqb_spec (y mod 400) 0); divmod. }
  rewrite H4, H100, H400.
  assert (A : y mod 100 = 0 -> y mod 4 = 0) by divmod.
  assert (B : y mod 400 = 0 -> y mod 100 = 0) by divmod.
  destruct (Z.eqb_spec (y mod 4) 0), (Z.eqb_spec (y mod 100) 0),
           (Z.eqb_spec (y mod 400) 0);
    cbn [negb]; lia.
Qed.

Lemma DayFromYear_mono y1 y2 : y1 <= y2 -> DayFromYear y1 <= DayFromYear y2.
Proof. unfold DayFromYear. intros. divmod. Qed.

(** [YearFromDay d] is the year ECMAScript asks for: the one whose days
    include day number [d]. *)
Lemma YearFromDay_spec d :
  DayFromYear (YearFromDay d) <= d < DayFromYear (YearFromDay d + 1).
Proof.
  unfold YearFromDay.
  destruct (Z.ltb_spec d (DayFromYear (1970 + 400 * d / 146097))).
  - replace (1970 + 400 * d / 146097 - 1 + 1) with (1970 + 400 * d / 146097) by lia.
    split; [|lia]. unfold DayFromYear in *. divmod.
  - destruct (Z.leb_spec (DayFromYear (1970 + 400 * d / 146097 + 1)) d).
    + split; [lia|]. unfold DayFromYear in *. divmod.
    + lia.
Qed.

Lemma YearFromDay_unique d y :
  DayFromYear y <= d < DayFromYear (y + 1) -> YearFromDay d = y.
Proof.
  intros H. pose proof (YearFromDay_spec d) as S.
  destruct (Z.lt_trichotomy (YearFromDay d) y) as [L | [E | G]]; auto.
  - pose proof (DayFromYear_mono (YearFromDay d + 1) y ltac:(lia)). lia.
  - pose proof (DayFromYear_mono (y + 1) (YearFromDay d) ltac:(lia)). lia.
Qed.

Lemma getMonth_range t : 0 <= getMonth t <= 11.
Proof.
  unfold getMonth, MonthFromTime.
  repeat match goal with |- context [if ?b then _ else _] => destruct b end; lia.
Qed.

Lemma DaysInMonth_range y m : 28 <= DaysInMonth y m <= 31.
Proof.
  unfold DaysInMonth.
  repeat match goal with
         | |- context [match ?x with _ => _ end] => destruct x
         end; lia.
Qed.

Lemma month_cases m : 0 <= m <= 11 ->
  m = 0 \/ m = 1 \/ m = 2 \/ m = 3 \/ m = 4 \/ m = 5 \/
  m = 6 \/ m = 7 \/ m = 8 \/ m = 9 \/ m = 10 \/ m = 11.
Proof. lia. Qed.

Ltac leap_cases y :=
  let E := fresh "E" in
  destruct (DaysInYear_cases y) as [E | E]; rewrite ?E in *;
  [ change (365 =? 366) with false in * | change (366 =? 366) with true in * ];
  cbv iota in *.

Ltac each_month m H :=
  apply month_cases in H;
  repeat (destruct H as [H | H]); subst m.

Lemma MakeDay_month y m d : 0 <= m <= 11 ->
  MakeDay y m d =
  DayFromYear y + MonthStartDay m (if DaysInYear y =? 366 then 1 else 0) + d - 1.
Proof.
  intros H. unfold MakeDay.
  replace (m / 12) with 0 by divmod. replace (m mod 12) with m by divmod.
  now rewrite Z.add_0_r.
Qed.

(** Day 0 of the next month is the last day of this one. *)
Lemma MakeDay_next_month y m : 0 <= m <= 11 ->
  MakeDay y (m + 1) 0 = MakeDay y m (DaysInMonth y m).
Proof.
  intros H. destruct (Z.eq_dec m 11) as [-> | N].
  - rewrite (MakeDay_month y 11) by lia.
    unfold MakeDay. change ((11 + 1) / 12) with 1. change ((11 + 1) mod 12) with 0.
    rewrite DayFromYear_succ.
    unfold MonthStartDay, DaysInMonth.
    leap_cases y; lia.
  - each_month m H; try lia;
      match goal with
      | |- context [MakeDay y (?a + 1) 0] =>
          let v := eval compute in (a + 1) in change (a + 1) with v
      end;
      rewrite !MakeDay_month by lia; unfold MonthStartDay, DaysInMonth;
      leap_cases y; lia.
Qed.

Lemma civil_of_day y m d D :
  0 <= m <= 11 -> 1 <= d <= DaysInMonth y m -> D = MakeDay y m d ->
  YearFromDay D = y /\
  D - DayFromYear y = MonthStartDay m (if DaysInYear y =? 366 then 1 else 0) + d - 1.
Proof.
  intros Hm Hd ->. rewrite MakeDay_month by assumption.
  split; [|lia].
  apply YearFromDay_unique. rewrite DayFromYear_succ.
  each_month m Hm; unfold MonthStartDay, DaysInMonth in *;
    leap_cases y; lia.
Qed.

(** The getters invert [MakeDay] on the days of a month. *)
Lemma civil_of_time y m d t :
  0 <= m <= 11 -> 1 <= d <= DaysInMonth y m -> Day t = MakeDay y m d ->
  getFullYear t = y /\ getMonth t = m /\ getDate t = d.
Proof.
  intros Hm Hd HD.
  destruct (civil_of_day y m d (Day t) Hm Hd HD) as [Hy Hw].
  unfold getFullYear, getMonth, getDate, DateFromTime, MonthFromTime,
    DayWithinYear, InLeapYear, YearFromTime.
  rewrite Hy, Hw. split; [reflexivity|].
  each_month m Hm; unfold MonthStartDay, DaysInMonth in *;
    leap_cases y; cbv beta zeta;
    repeat match goal with
           | |- context [?a <? ?b] => destruct (Z.ltb_spec a b); try lia
           end; split; lia.
Qed.

Lemma Day_mono a b : a <= b -> Day a <= Day b.
Proof. intros. unfold Day. apply Z.div_le_mono; [reflexivity | assumption]. Qed.

End DateFacts.

(** Arithmetic is done on sealed quantities: the calendar terms are
    replaced by variables before [lia] or [ring] sees them. *)
Ltac seal_term t :=
  let x := fresh "q" in set (x := t) in *; clearbody x.

Ltac seal :=
  repeat match goal with
    | |- context [JSDate.Day ?t] => seal_term (JSDate.Day t)
    | H : context [JSDate.Day ?t] |- _ => seal_term (JSDate.Day t)
    | |- context [JSDate.MakeDay ?y ?m ?d] => seal_term (JSDate.MakeDay y m d)
    | H : context [JSDate.MakeDay ?y ?m ?d] |- _ => seal_term (JSDate.MakeDay y m d)
    | |- context [Calendar.monthLength ?t] => seal_term (Calendar.monthLength t)
    | H : context [Calendar.monthLength ?t] |- _ => seal_term (Calendar.monthLength t)
    | |- context [JSDate.DayFromYear ?t] => seal_term (JSDate.DayFromYear t)
    | H : context [JSDate.DayFromYear ?t] |- _ => seal_term (JSDate.DayFromYear t)
    | |- context [JSDate.MonthStartDay ?t ?l] => seal_term (JSDate.MonthStartDay t l)
    | H : context [JSDate.MonthStartDay ?t ?l] |- _ => seal_term (JSDate.MonthStartDay t l)
    | |- context [JSDate.DaysInMonth ?t ?l] => seal_term (JSDate.DaysInMonth t l)
    | H : context [JSDate.DaysInMonth ?t ?l] |- _ => seal_term (JSDate.DaysInMonth t l)
    | |- context [Calendar.startOfMonth ?t] => seal_term (Calendar.startOfMonth t)
    | H : context [Calendar.startOfMonth ?t] |- _ => seal_term (Calendar.startOfMonth t)
    | |- context [Calendar.endOfMonth ?t] => seal_term (Calendar.endOfMonth t)
    | H : context [Calendar.endOfMonth ?t] |- _ => seal_term (Calendar.endOfMonth t)
    | |- context [JSDate.getDate ?t] => seal_term (JSDate.getDate t)
    | H : context [JSDate.getDate ?t] |- _ => seal_term (JSDate.getDate t)
    | |- context [Calendar.getDaysInMonth ?t] => seal_term (Calendar.getDaysInMonth t)
    | H : context [Calendar.getDaysInMonth ?t] |- _ => seal_term (Calendar.getDaysInMonth t)
    end.

(** ** The month on display *)

Section WindowFacts.
Import JSDate Calendar.

Lemma monthLength_range cd : 28 <= monthLength cd <= 31.
Proof. apply DaysInMonth_range. Qed.

Lemma startOfMonth_eq cd :
  startOfMonth cd = MakeDay (fullYear (getFullYear cd)) (getMonth cd) 1 * msPerDay.
Proof. unfold startOfMonth, mkDate, MakeDate. apply Z.add_0_r. Qed.

Lemma endOfMonth_eq cd :
  endOfMonth cd = startOfMonth cd + (monthLength cd - 1) * msPerDay.
Proof.
  rewrite startOfMonth_eq. unfold endOfMonth, mkDate, MakeDate, monthLength.
  rewrite MakeDay_next_month by apply getMonth_range.
  rewrite !MakeDay_month by apply getMonth_range.
  seal. ring.
Qed.

Lemma Day_startOfMonth cd :
  Day (startOfMonth cd) = MakeDay (fullYear (getFullYear cd)) (getMonth cd) 1.
Proof. rewrite startOfMonth_eq. unfold Day. apply Z.div_mul. discriminate. Qed.

Lemma Day_endOfMonth cd :
  Day (endOfMonth cd) = Day (startOfMonth cd) + monthLength cd - 1.
Proof.
  rewrite endOfMonth_eq. unfold Day. rewrite Z.div_add by discriminate.
  seal. ring.
Qed.

Lemma window_ordered cd : startOfMonth cd <= endOfMonth cd.
Proof.
  rewrite endOfMonth_eq. pose proof (monthLength_range cd).
  seal. unfold msPerDay. lia.
Qed.

(** Inside the month, the day of the month counts days from its start. *)
Lemma getDate_in_month cd t :
  startOfMonth cd <= t <= endOfMonth cd ->
  getDate t = Day t - Day (startOfMonth cd) + 1.
Proof.
  intros [Lo Hi]. pose proof (monthLength_range cd) as R.
  apply Day_mono in Lo. apply Day_mono in Hi.
  rewrite Day_endOfMonth in Hi.
  rewrite Day_startOfMonth in *.
  apply (civil_of_time (fullYear (getFullYear cd)) (getMonth cd) _ t).
  - apply getMonth_range.
  - fold (monthLength cd). seal. lia.
  - rewrite !MakeDay_month by apply getMonth_range. seal. ring.
Qed.

Lemma getDate_startOfMonth cd : getDate (startOfMonth cd) = 1.
Proof.
  rewrite (getDate_in_month cd).
  - seal. ring.
  - split; [reflexivity | apply window_ordered].
Qed.

Lemma getDate_endOfMonth cd : getDate (endOfMonth cd) = monthLength cd.
Proof.
  rewrite (getDate_in_month cd).
  - rewrite Day_endOfMonth. seal. ring.
  - split; [apply window_ordered | reflexivity].
Qed.

Lemma getDaysInMonth_eq cd : getDaysInMonth cd = monthLength cd.
Proof. apply getDate_endOfMonth. Qed.

End WindowFacts.

(** ** Visible spans *)

Section SpanFacts.
Import JSDate Calendar CalendarExamples.

Lemma span_fields r ws we :
  let sp := getReservationSpan r ws we in
  startDay sp = (if start_date r <? ws then 1 else getDate (start_date r)) /\
  endDay sp = (if we <? end_date r then getDate we else getDate (end_date r)) /\
  span sp = endDay sp - startDay sp + 1.
Proof. unfold getReservationSpan. cbn [startDay endDay span]. auto. Qed.

Lemma startDay_clipped r cd :
  startDay (getReservationSpan r (startOfMonth cd) (endOfMonth cd)) =
  getDate (Z.max (start_date r) (startOfMonth cd)).
Proof.
  destruct (span_fields r (startOfMonth cd) (endOfMonth cd)) as [-> _].
  destruct (Z.ltb_spec (start_date r) (startOfMonth cd)).
  - rewrite Z.max_r by (seal; lia). symmetry. apply getDate_startOfMonth.
  - rewrite Z.max_l by (seal; lia). reflexivity.
Qed.

Lemma endDay_clipped r ws we :
  endDay (getReservationSpan r ws we) = getDate (Z.min (end_date r) we).
Proof.
  destruct (span_fields r ws we) as [_ [-> _]].
  destruct (Z.ltb_spec we (end_date r)).
  - rewrite Z.min_r by lia. reflexivity.
  - rewrite Z.min_l by lia. reflexivity.
Qed.

Lemma clipped_in_window r cd :
  start_date r <= end_date r ->
  intersects r (startOfMonth cd) (endOfMonth cd) ->
  let cs := Z.max (start_date r) (startOfMonth cd) in
  let ce := Z.min (end_date r) (endOfMonth cd) in
  startOfMonth cd <= cs <= endOfMonth cd /\
  startOfMonth cd <= ce <= endOfMonth cd /\
  cs <= ce.
Proof.
  intros Hle [H1 H2]. pose proof (window_ordered cd). cbv zeta. seal. lia.
Qed.

Lemma span_in_month r cd :
  start_date r <= end_date r ->
  intersects r (startOfMonth cd) (endOfMonth cd) ->
  let sp := getReservationSpan r (startOfMonth cd) (endOfMonth cd) in
  1 <= startDay sp /\ startDay sp <= endDay sp /\ endDay sp <= getDaysInMonth cd.
Proof.
  intros Hle Hi. cbv zeta.
  destruct (clipped_in_window r cd Hle Hi) as (Hs & He & Hse).
  rewrite startDay_clipped, endDay_clipped, getDaysInMonth_eq.
  rewrite (getDate_in_month cd _ Hs), (getDate_in_month cd _ He).
  pose proof (Day_mono _ _ (proj1 Hs)). pose proof (Day_mono _ _ (proj2 He)).
  pose proof (Day_mono _ _ Hse).
  rewrite Day_endOfMonth in *. seal. lia.
Qed.

(** C6.  A reservation with [start <= end] that meets the month on
    display is shown from the day of [max(start, windowStart)] to the day
    of [min(end, windowEnd)]; the span counts both ends, so it is the
    number of calendar days from the clipped start to the clipped end,
    plus one. *)
Theorem C6_visible_span_is_clipped_interval (r : Reservation) (cd : Z) :
  start_date r <= end_date r ->
  intersects r (startOfMonth cd) (endOfMonth cd) ->
  let sp := getReservationSpan r (startOfMonth cd) (endOfMonth cd) in
  let clippedStart := Z.max (start_date r) (startOfMonth cd) in
  let clippedEnd := Z.min (end_date r) (endOfMonth cd) in
  startDay sp = getDate clippedStart /\
  endDay sp = getDate clippedEnd /\
  span sp = Day clippedEnd - Day clippedStart + 1 /\
  1 <= span sp.
Proof.
  intros Hle Hi. cbv zeta.
  destruct (clipped_in_window r cd Hle Hi) as (Hs & He & Hse).
  destruct (span_fields r (startOfMonth cd) (endOfMonth cd)) as (_ & _ & Hspan).
  rewrite Hspan, startDay_clipped, endDay_clipped.
  rewrite (getDate_in_month cd _ Hs), (getDate_in_month cd _ He).
  pose proof (Day_mono _ _ Hse).
  repeat split; try reflexivity; seal; lia.
Qed.

(** The reservation that begins on 27 February, seen in March, is
    clipped at the first of the month. *)
Lemma C6_witness :
  let sp := getReservationSpan straddling (startOfMonth march2025) (endOfMonth march2025) in
  startDay sp = getDate (Z.max (start_date straddling) (startOfMonth march2025)) /\
  endDay sp = getDate (Z.min (end_date straddling) (endOfMonth march2025)) /\
  span sp = Day (Z.min (end_date straddling) (endOfMonth march2025))
            - Day (Z.max (start_date straddling) (startOfMonth march2025)) + 1 /\
  1 <= span sp.
Proof.
  apply (C6_visible_span_is_clipped_interval straddling march2025).
  - vm_compute. discriminate.
  - split; vm_compute; discriminate.
Defined.

Example straddling_span :
  getReservationSpan straddling (startOfMonth march2025) (endOfMonth march2025)
  = {| startDay := 1; endDay := 3; span := 3 |}.
Proof. vm_compute. reflexivity. Qed.

End SpanFacts.

(** ** Rows of the grid *)

Section RowFacts.
Import JSDate Calendar CalendarExamples.

Lemma nth_error_indices n k :
  (k < Z.to_nat n)%nat -> nth_error (indices n) k = Some (Z.of_nat k).
Proof.
  intros H. unfold indices. rewrite nth_error_map.
  rewrite (nth_error_nth' _ 0%nat) by (now rewrite length_seq).
  rewrite seq_nth by assumption. reflexivity.
Qed.

Lemma nth_error_renderRow rs cd item k c :
  nth_error (renderRow rs cd item) k = Some c ->
  c = renderCell rs cd item (Z.of_nat k) /\ Z.of_nat k < getDaysInMonth cd.
Proof.
  unfold renderRow. rewrite nth_error_map. intros H.
  destruct (nth_error (indices (getDaysInMonth cd)) k) as [i |] eqn:E; [|discriminate].
  assert (L : (k < Z.to_nat (getDaysInMonth cd))%nat).
  { assert (L : (k < List.length (indices (getDaysInMonth cd)))%nat)
      by (apply nth_error_Some; rewrite E; discriminate).
    unfold indices in L. now rewrite length_map, length_seq in L. }
  rewrite nth_error_indices in E by assumption. injection E as <-.
  injection H as <-. split; [reflexivity|]. seal. lia.
Qed.

Lemma nth_error_renderRow_day rs cd item d :
  1 <= d <= getDaysInMonth cd ->
  nth_error (renderRow rs cd item) (Z.to_nat (d - 1)) =
  Some (renderCell rs cd item (d - 1)).
Proof.
  intros H. unfold renderRow. rewrite nth_error_map, nth_error_indices.
  - cbn [option_map]. rewrite Z2Nat.id by lia. reflexivity.
  - seal. lia.
Qed.

Lemma renderCell_eq rs cd item dayIndex :
  renderCell rs cd item dayIndex =
  match findReservation (itemReservations rs item) (startOfMonth cd) (endOfMonth cd)
                        dayIndex with
  | Some reservation =>
      let sp := getReservationSpan reservation (startOfMonth cd) (endOfMonth cd) in
      if dayIndex + 1 =? startDay sp then
        SpanCell reservation (span sp)
                 (getReservationContent reservation (1240 / getDaysInMonth cd) (1 <? span sp))
                 (1 <? span sp)
      else NullCell
  | None => EmptyCell
  end.
Proof. reflexivity. Qed.

(** A cell that shows [r] is the cell of the first day of [r]. *)
Lemma span_cell_anchor rs cd item dayIndex r :
  cellReservation (renderCell rs cd item dayIndex) = Some r ->
  findReservation (itemReservations rs item) (startOfMonth cd) (endOfMonth cd) dayIndex
    = Some r /\
  dayIndex + 1 = startDay (getReservationSpan r (startOfMonth cd) (endOfMonth cd)).
Proof.
  rewrite renderCell_eq.
  destruct (findReservation _ _ _ _) as [r' |]; [|discriminate].
  cbv zeta.
  destruct (Z.eqb_spec (dayIndex + 1)
              (startDay (getReservationSpan r' (startOfMonth cd) (endOfMonth cd))));
    [|discriminate].
  cbn [cellReservation]. intros [= ->]. auto.
Qed.

(** The first reservation of the list that is on the line is placed. *)
Lemma placed_head rs cd item r :
  includesLine r item = true -> placed (r :: rs) cd item r.
Proof.
  intros Hl. unfold placed. cbv zeta. intros d [H1 H2].
  unfold itemReservations. cbn [filter]. rewrite Hl.
  unfold findReservation. cbn [find]. unfold covers. cbv zeta.
  apply Z.leb_le in H1, H2. now rewrite H1, H2.
Qed.

(** More generally, a reservation of the line is placed when no
    reservation listed before it covers a day of its span. *)
Lemma placed_no_earlier_cover rs cd item r before after :
  itemReservations rs item = (before ++ r :: after)%list ->
  (forall x dayIndex,
     In x before ->
     covers r (startOfMonth cd) (endOfMonth cd) dayIndex = true ->
     covers x (startOfMonth cd) (endOfMonth cd) dayIndex = false) ->
  placed rs cd item r.
Proof.
  intros E Hfree. unfold placed. cbv zeta. intros d [H1 H2].
  assert (Hc : covers r (startOfMonth cd) (endOfMonth cd) d = true).
  { unfold covers. cbv zeta. apply Z.leb_le in H1, H2. now rewrite H1, H2. }
  rewrite E. unfold findReservation. clear E.
  induction before as [| x before IH]; cbn [app find].
  - now rewrite Hc.
  - rewrite (Hfree x d) by (now left || exact Hc). apply IH.
    intros y d' Hy. apply Hfree. now right.
Qed.

(** C7.  A placed reservation (start <= end, meeting the month) has
    one merged cell in its row: it sits at the day offset of the clipped
    start, carries the span [endDay - startDay + 1], no other cell of the
    row shows the reservation, and the cells of the other days of the span
    are [null], that is, not rendered on their own. *)
Theorem C7_one_anchored_span_per_placed_reservation
        (rs : list Reservation) (cd : Z) (item : Equipment) (r : Reservation) :
  start_date r <= end_date r ->
  intersects r (startOfMonth cd) (endOfMonth cd) ->
  placed rs cd item r ->
  let sp := getReservationSpan r (startOfMonth cd) (endOfMonth cd) in
  let row := renderRow rs cd item in
  let clippedStart := Z.max (start_date r) (startOfMonth cd) in
  nth_error row (Z.to_nat (startDay sp - 1)) =
    Some (SpanCell r (span sp)
                   (getReservationContent r (1240 / getDaysInMonth cd) (1 <? span sp))
                   (1 <? span sp)) /\
  startDay sp - 1 = Day clippedStart - Day (startOfMonth cd) /\
  span sp = endDay sp - startDay sp + 1 /\
  (forall i c, nth_error row i = Some c -> cellReservation c = Some r ->
               i = Z.to_nat (startDay sp - 1)) /\
  (forall d, startDay sp < d <= endDay sp ->
             nth_error row (Z.to_nat (d - 1)) = Some NullCell).
Proof.
  intros Hle Hi Hp. cbv zeta.
  destruct (span_in_month r cd Hle Hi) as (H1 & H2 & H3).
  destruct (span_fields r (startOfMonth cd) (endOfMonth cd)) as (_ & _ & Hspan).
  destruct (clipped_in_window r cd Hle Hi) as (Hs & _ & _).
  pose proof (startDay_clipped r cd) as Hsd.
  rewrite (getDate_in_month cd _ Hs) in Hsd.
  unfold placed in Hp. cbv zeta in Hp.
  set (sp := getReservationSpan r (startOfMonth cd) (endOfMonth cd)) in *.
  split; [|split; [|split; [|split]]].
  - rewrite nth_error_renderRow_day by (seal; lia).
    rewrite renderCell_eq, Hp by lia. cbv zeta. fold sp.
    replace (startDay sp - 1 + 1) with (startDay sp) by ring.
    now rewrite Z.eqb_refl.
  - rewrite Hsd. seal. ring.
  - exact Hspan.
  - intros i c Hn Hc. apply nth_error_renderRow in Hn as [-> _].
    apply span_cell_anchor in Hc as [_ Hc]. fold sp in Hc. lia.
  - intros d Hd. rewrite nth_error_renderRow_day by (seal; lia).
    rewrite renderCell_eq, Hp by lia. cbv zeta. fold sp.
    destruct (Z.eqb_spec (d - 1 + 1) (startDay sp)); [lia | reflexivity].
Qed.

Lemma C7_witness :
  nth_error (renderRow [R1; R2] march2025 line) 0 =
    Some (SpanCell R1 5 (getReservationContent R1 40 true) true) /\
  forall d, 1 < d <= 5 ->
            nth_error (renderRow [R1; R2] march2025 line) (Z.to_nat (d - 1)) = Some NullCell.
Proof.
  destruct (C7_one_anchored_span_per_placed_reservation [R1; R2] march2025 line R1)
    as (Anchor & _ & _ & _ & Rest).
  - vm_compute. discriminate.
  - split; vm_compute; discriminate.
  - apply placed_head. reflexivity.
  - split.
    + etransitivity; [|etransitivity; [exact Anchor|]]; vm_compute; reflexivity.
    + intros d Hd. apply Rest.
      replace (startDay _) with 1 by (vm_compute; reflexivity).
      replace (endDay _) with 5 by (vm_compute; reflexivity).
      exact Hd.
Defined.

End RowFacts.

(** ** Which reservations a row considers *)

Section ConsideredFacts.
Import JSDate Calendar CalendarExamples.

Lemma In_selectReservations db from to r :
  In r (selectReservations db from to) <->
  In r db /\ from <= start_date r /\ end_date r <= to /\
  status r <> "cancelled"%string /\ reservation_items r <> [].
Proof.
  unfold selectReservations. rewrite filter_In, !andb_true_iff, !negb_true_iff.
  rewrite !Z.leb_le, String.eqb_neq.
  destruct (reservation_items r); intuition congruence.
Qed.

Lemma includesLine_items r item :
  includesLine r item = true -> reservation_items r <> [].
Proof.
  unfold includesLine. destruct (reservation_items r); [discriminate | congruence].
Qed.

Lemma In_considered db cd item r :
  In r (considered db cd item) <->
  In r db /\ includesLine r item = true /\
  within r (startOfMonth cd) (endOfMonth cd) /\ status r <> "cancelled"%string.
Proof.
  unfold considered, itemReservations, within.
  rewrite filter_In, In_selectReservations.
  pose proof (includesLine_items r item). tauto.
Qed.

(** What a successful load leaves the component with: the rows selected
    for the month on display. *)
Lemma reservations_after_load db s :
  reservations (step s (ReservationsLoaded db false)) =
  selectReservations db (startOfMonth (currentDate s)) (endOfMonth (currentDate s)).
Proof. reflexivity. Qed.

(** A reservation that begins before the month on display, or ends after
    it, is never among the reservations a load brings, whether or not it
    meets the month. *)
Lemma partly_outside_not_loaded db s r :
  start_date r < startOfMonth (currentDate s) \/
  endOfMonth (currentDate s) < end_date r ->
  ~ In r (reservations (step s (ReservationsLoaded db false))).
Proof.
  intros H Hin. rewrite reservations_after_load in Hin.
  apply In_selectReservations in Hin. seal. lia.
Qed.

(** C1.  The table holds one reservation, of 27 February to 3 March, on
    the line and not cancelled; the calendar is mounted in March 2025 and
    its two queries are answered.  The reservation begins before the
    month and ends in it, so it meets the window, and
    [getReservationSpan] would draw it on days 1 to 3; but the query does
    not return it: the component holds no reservation and the row of the
    line is 31 empty cells. *)
Theorem C1_overlapping_reservation_is_not_fetched :
  let s := run (initialState march2025)
               [EquipmentLoaded {| Supabase.data := Some [line]; Supabase.error := None |};
                ReservationsLoaded [straddling] false] in
  let ws := startOfMonth (currentDate s) in
  let we := endOfMonth (currentDate s) in
  includesLine straddling line = true /\
  status straddling <> "cancelled"%string /\
  start_date straddling < ws /\
  intersects straddling ws we /\
  getReservationSpan straddling ws we = {| startDay := 1; endDay := 3; span := 3 |} /\
  equipment s = [line] /\
  reservations s = [] /\
  fst (renderGrid s) = [repeat EmptyCell 31].
Proof.
  cbv zeta.
  split; [reflexivity|]. split; [discriminate|].
  split; [vm_compute; reflexivity|].
  split; [split; vm_compute; discriminate|].
  split; [vm_compute; reflexivity|].
  split; [vm_compute; reflexivity|].
  split; vm_compute; reflexivity.
Qed.

End ConsideredFacts.

(** ** Who occupies a cell *)

Section OccupantFacts.
Import JSDate Calendar CalendarExamples.

Lemma find_first {A} (f : A -> bool) (l : list A) (x : A) :
  find f l = Some x <->
  exists before after,
    l = (before ++ x :: after)%list /\ f x = true /\
    Forall (fun y => f y = false) before.
Proof.
  induction l as [| a l IH]; cbn [find].
  - split; [discriminate|]. intros (b & t & E & _). destruct b; discriminate.
  - destruct (f a) eqn:Fa.
    + split.
      * intros [= ->]. exists [], l. auto.
      * intros ([| b bs] & t & E & Fx & Hb).
        -- now injection E as -> _.
        -- injection E as -> _. inversion Hb; congruence.
    + rewrite IH. split.
      * intros (b & t & -> & Fx & Hb). exists (a :: b), t. auto.
      * intros ([| b bs] & t & E & Fx & Hb).
        -- injection E as -> _. congruence.
        -- injection E as -> ->. inversion Hb; subst. eauto.
Qed.

(** The reservation found for a day is the first one, in the order of
    the list, among those whose visible span covers the day. *)
Lemma findReservation_first rs ws we dayIndex r :
  findReservation rs ws we dayIndex = Some r <->
  exists before after,
    rs = (before ++ r :: after)%list /\
    covers r ws we dayIndex = true /\
    Forall (fun x => covers x ws we dayIndex = false) before.
Proof.
  unfold findReservation.
  apply (find_first (fun x => covers x ws we dayIndex)).
Qed.

Lemma findReservation_none rs ws we dayIndex :
  Forall (fun x => covers x ws we dayIndex = false) rs ->
  findReservation rs ws we dayIndex = None.
Proof.
  unfold findReservation. induction 1 as [| x l Hx _ IH]; cbn [find]; [reflexivity|].
  now rewrite Hx.
Qed.

(** When a reservation of [before] covers the day, the one found is in
    [before]. *)
Lemma findReservation_earlier before rest ws we dayIndex :
  Exists (fun x => covers x ws we dayIndex = true) before ->
  exists y, findReservation (before ++ rest) ws we dayIndex = Some y /\ In y before.
Proof.
  unfold findReservation.
  induction before as [| x before IH]; intros H; [inversion H|].
  cbn [app find]. destruct (covers x ws we dayIndex) eqn:Cx.
  - exists x. split; [reflexivity | now left].
  - inversion H as [? ? Hx | ? ? Hl]; subst; [congruence|].
    destruct (IH Hl) as (y & Hy & Hin). exists y. split; [exact Hy | now right].
Qed.

(** C2, amended.  The row of a line has one cell for every day of the
    month, overlaps or not.  The cell of a day is decided by the first
    reservation, in the order of the fetched list, among the reservations
    of the line whose visible span covers the day: it is the merged cell
    of that reservation, with its whole span, when the day is its first
    visible day, and [null] when it is not; when no reservation covers
    the day the cell is empty.  The start dates are not compared and
    nothing is set aside: a reservation whose first visible day is
    covered by a reservation listed before it has no merged cell in the
    row. *)
Theorem C2_cells_go_to_first_listed_cover
        (rs : list Reservation) (cd : Z) (item : Equipment) :
  let ws := startOfMonth cd in
  let we := endOfMonth cd in
  let listed := itemReservations rs item in
  let row := renderRow rs cd item in
  List.length row = Z.to_nat (getDaysInMonth cd) /\
  (forall d, 1 <= d <= getDaysInMonth cd ->
     (Forall (fun x => covers x ws we (d - 1) = false) listed ->
      nth_error row (Z.to_nat (d - 1)) = Some EmptyCell) /\
     (forall before r after,
        listed = (before ++ r :: after)%list ->
        covers r ws we (d - 1) = true ->
        Forall (fun x => covers x ws we (d - 1) = false) before ->
        let sp := getReservationSpan r ws we in
        nth_error row (Z.to_nat (d - 1)) =
        Some (if d =? startDay sp
              then SpanCell r (span sp)
                     (getReservationContent r (1240 / getDaysInMonth cd) (1 <? span sp))
                     (1 <? span sp)
              else NullCell))) /\
  (forall before r after,
     listed = (before ++ r :: after)%list ->
     ~ In r before ->
     Exists (fun x => covers x ws we (startDay (getReservationSpan r ws we) - 1) = true)
            before ->
     forall i c, nth_error row i = Some c -> cellReservation c <> Some r).
Proof.
  cbv zeta. split; [|split].
  - unfold renderRow, indices. now rewrite !length_map, length_seq.
  - intros d Hd. rewrite (nth_error_renderRow_day rs cd item d Hd), renderCell_eq.
    split.
    + intros Hnone. now rewrite (findReservation_none _ _ _ _ Hnone).
    + intros before r after E Hc Hb. cbv zeta.
      assert (F : findReservation (itemReservations rs item) (startOfMonth cd)
                                  (endOfMonth cd) (d - 1) = Some r)
        by (apply findReservation_first; exists before, after; auto).
      rewrite F. cbv zeta.
      replace (d - 1 + 1) with d by ring. reflexivity.
  - intros before r after E Hnot Hex i c Hn Hc.
    apply nth_error_renderRow in Hn as [-> _].
    apply span_cell_anchor in Hc as [Hf Ha].
    replace (Z.of_nat i) with
      (startDay (getReservationSpan r (startOfMonth cd) (endOfMonth cd)) - 1) in Hf
      by (rewrite <- Ha; ring).
    rewrite E in Hf.
    destruct (findReservation_earlier before (r :: after) _ _ _ Hex) as (y & Hy & Hin).
    rewrite Hy in Hf. injection Hf as ->. contradiction.
Qed.

(** [R1] (1 to 5 March) and [R2] (3 to 7 March).  Listed as [R1, R2],
    no cell of the row shows [R2]; listed as [R2, R1], each has its
    merged cell of 5 days, [R1] on day 1 and [R2] on day 3. *)
Lemma C2_witness :
  (forall i c, nth_error (renderRow [R1; R2] march2025 line) i = Some c ->
               cellReservation c <> Some R2) /\
  nth_error (renderRow [R2; R1] march2025 line) 0 =
    Some (SpanCell R1 5 (getReservationContent R1 40 true) true) /\
  nth_error (renderRow [R2; R1] march2025 line) 2 =
    Some (SpanCell R2 5 (getReservationContent R2 40 true) true).
Proof.
  destruct (C2_cells_go_to_first_listed_cover [R1; R2] march2025 line) as (_ & _ & NoCell).
  destruct (C2_cells_go_to_first_listed_cover [R2; R1] march2025 line) as (_ & Cells & _).
  split; [|split].
  - apply (NoCell [R1] R2 []).
    + reflexivity.
    + intros [H | []]. vm_compute in H. discriminate H.
    + apply Exists_cons_hd. vm_compute. reflexivity.
  - destruct (Cells 1) as [_ First].
    + split; vm_compute; discriminate.
    + etransitivity; [|etransitivity; [apply (First [R2] R1 [])|]].
      * vm_compute. reflexivity.
      * reflexivity.
      * vm_compute. reflexivity.
      * apply Forall_cons; [vm_compute; reflexivity | apply Forall_nil].
      * vm_compute. reflexivity.
  - destruct (Cells 3) as [_ First].
    + split; vm_compute; discriminate.
    + etransitivity; [|etransitivity; [apply (First [] R2 [R1])|]].
      * vm_compute. reflexivity.
      * reflexivity.
      * vm_compute. reflexivity.
      * apply Forall_nil.
      * vm_compute. reflexivity.
Defined.

(** [R1] (1 to 5 March) starts before [R2] (3 to 7 March) and both cover
    3 March; listed as [R2, R1], the cell of 3 March shows [R2]. *)
Lemma C2_counterexample :
  start_date R1 < start_date R2 /\
  covers R1 (startOfMonth march2025) (endOfMonth march2025) 2 = true /\
  covers R2 (startOfMonth march2025) (endOfMonth march2025) 2 = true /\
  option_map cellReservation (nth_error (renderRow [R2; R1] march2025 line) 2)
    = Some (Some R2).
Proof. split; [|repeat split]; vm_compute; reflexivity. Qed.

(** The same pair listed as [R1, R2]: [R1] is shown on days 1 to 5,
    days 6 and 7 are [null] cells of a merged cell that was never
    emitted, and [R2] is nowhere in the row. *)
Example overlap_R1_first :
  map cellReservation (firstn 8 (renderRow [R1; R2] march2025 line)) =
  [Some R1; None; None; None; None; None; None; None] /\
  firstn 3 (skipn 5 (renderRow [R1; R2] march2025 line)) =
  [NullCell; NullCell; EmptyCell] /\
  forallb (fun c => match cellReservation c with
                    | Some r => negb (id r =? "r2")%string
                    | None => true
                    end) (renderRow [R1; R2] march2025 line) = true.
Proof. repeat split; vm_compute; reflexivity. Qed.

End OccupantFacts.

(** ** Labels *)

Section LabelFacts.
Import JSDate Calendar CalendarExamples.

(** C3, amended.  The text of a merged cell is chosen by
    [days = ceil((end - start) / 24h)], the elapsed time of the
    reservation: from 4 days on, last and first name and the range with
    day, month and times; for 2 or 3 days, the last name with the initial
    (cell narrower than 100) or the first name, and the range of days;
    up to 1 day, the last name and the day of the month. *)
Theorem C3_label_by_elapsed_days
        (r : Reservation) (cellWidth : Z) (isMultiDay : bool) :
  let days := elapsedDays (start_date r) (end_date r) in
  let lastName := last_name (customer r) in
  let firstName := first_name (customer r) in
  (4 <= days ->
   getReservationContent r cellWidth isMultiDay =
   (lastName ++ " " ++ firstName) ++ nl
   ++ show (getDate (start_date r)) ++ "." ++ show (getMonth (start_date r) + 1)
   ++ " " ++ start_time r ++ " - "
   ++ show (getDate (end_date r)) ++ "." ++ show (getMonth (end_date r) + 1)
   ++ " " ++ end_time r)%string
  /\
  (2 <= days <= 3 ->
   getReservationContent r cellWidth isMultiDay =
   (if (cellWidth <? 100)%Z then lastName ++ " " ++ firstChar firstName ++ "."
    else lastName ++ " " ++ firstName)
   ++ nl ++ show (getDate (start_date r)) ++ "-" ++ show (getDate (end_date r)))%string
  /\
  (days <= 1 ->
   getReservationContent r cellWidth isMultiDay =
   lastName ++ nl ++ show (getDate (start_date r)))%string.
Proof.
  cbv zeta. unfold getReservationContent, formatDateRange, formatCustomerName.
  generalize (elapsedDays (start_date r) (end_date r)). intros days.
  split; [|split]; intros H.
  - destruct (Z.leb_spec 4 days); [|lia].
    reflexivity.
  - destruct (Z.leb_spec 4 days); [lia|].
    destruct (Z.leb_spec 2 days); [|lia].
    destruct (Z.leb_spec days 3); [|lia].
    reflexivity.
  - destruct (Z.leb_spec 4 days); [lia|].
    destruct (Z.leb_spec 2 days); [lia|].
    reflexivity.
Qed.

(** A one-day reservation of Kowalski on the 14th. *)
Lemma C3_witness :
  getReservationContent oneDay 40 false = ("Kowalski" ++ nl ++ "14")%string.
Proof.
  destruct (C3_label_by_elapsed_days oneDay 40 false) as (_ & _ & One).
  rewrite One.
  - vm_compute. reflexivity.
  - vm_compute. discriminate.
Defined.

(** 14 to 15 March spans two days of the grid, but a single day
    elapses: the text is the one of a one-day reservation, not the one
    of the 2-3-day format. *)
Lemma C3_counterexample :
  span (getReservationSpan twoDays (startOfMonth march2025) (endOfMonth march2025)) = 2 /\
  getReservationContent twoDays 40 true = ("Kowalski" ++ nl ++ "14")%string /\
  getReservationContent twoDays 40 true <> ("Kowalski A." ++ nl ++ "14-15")%string.
Proof. split; [|split]; vm_compute; [reflexivity | reflexivity | discriminate]. Qed.

(** The initial is the first UTF-16 code unit of the first name: the
    whole letter for a letter of the basic plane, whatever the number of
    its bytes; the text [undefined] for an empty first name; half a
    surrogate pair for a character beyond the basic plane. *)
Example initial_is_a_code_unit :
  firstChar "Adam" = "A" /\
  firstChar "Łukasz" = "Ł" /\
  firstChar "" = "undefined" /\
  JSString.toUnits (firstChar "😀") = [55357] /\
  getReservationContent
    (booking "r7" "Łukasz" "Lis" (mkDate 2025 2 14) (mkDate 2025 2 16) "pending") 40 true
  = ("Lis Ł." ++ nl ++ "14-16")%string /\
  formatShortCell "Żółkiewski" (mkDate 2025 2 14) = ("Żółk" ++ nl ++ "14")%string.
Proof. repeat split; vm_compute; reflexivity. Qed.

(** A byte below 192 is a code unit of its own. *)
Lemma toUnits_cons c s :
  (JSString.byte c <? 192) = true ->
  JSString.toUnits (String c s) = JSString.byte c :: JSString.toUnits s.
Proof.
  intros H. destruct s as [| c' s']; [reflexivity|].
  cbn [JSString.toUnits]. rewrite H. reflexivity.
Qed.

Lemma char_byte c : JSString.char (JSString.byte c) = c.
Proof. unfold JSString.char, JSString.byte. rewrite N2Z.id. apply ascii_N_embedding. Qed.

(** Reading the code units of a string and writing them back gives the
    string, for a string of ASCII characters. *)
Lemma ofUnits_toUnits_ascii s :
  forallb (fun c => JSString.byte c <? 128) (list_ascii_of_string s) = true ->
  JSString.ofUnits (JSString.toUnits s) = s.
Proof.
  induction s as [| c s IH]; [reflexivity|].
  cbn [list_ascii_of_string forallb]. intros H.
  apply andb_true_iff in H as [Hc Hs]. specialize (IH Hs).
  rewrite toUnits_cons by (apply Z.ltb_lt; apply Z.ltb_lt in Hc; lia).
  cbn [JSString.ofUnits]. rewrite Hc, char_byte, IH. reflexivity.
Qed.

(** The initial of a first name that begins with an ASCII character is
    that character. *)
Lemma firstChar_ascii c s :
  (JSString.byte c <? 128) = true -> firstChar (String c s) = String c "".
Proof.
  intros Hc. unfold firstChar.
  rewrite toUnits_cons by (apply Z.ltb_lt; apply Z.ltb_lt in Hc; lia).
  cbn [JSString.ofUnits]. rewrite Hc, char_byte. reflexivity.
Qed.

Example labels_by_length :
  getReservationContent R1 40 true
  = ("Nowak Jan" ++ nl ++ "1.3 08:00 - 5.3 16:00")%string /\
  getReservationContent
    (booking "r7" "Adam" "Kowalski" (mkDate 2025 2 14) (mkDate 2025 2 16) "pending") 40 true
  = ("Kowalski A." ++ nl ++ "14-16")%string /\
  getReservationContent
    (booking "r7" "Adam" "Kowalski" (mkDate 2025 2 14) (mkDate 2025 2 16) "pending") 100 true
  = ("Kowalski Adam" ++ nl ++ "14-16")%string.
Proof. repeat split; vm_compute; reflexivity. Qed.

End LabelFacts.

(** ** The grid and the state *)

Section PurityFacts.
Import JSDate Calendar CalendarExamples.

Lemma renderGrid_eq s :
  renderGrid s = (map (renderRow (reservations s) (currentDate s)) (equipment s), s).
Proof. reflexivity. Qed.

(** The grid is written as a reader of the state; the handlers write
    it. *)
Example nextMonth_writes :
  currentDate (snd (nextMonth (initialState march2025))) = mkDate 2025 3 10 /\
  getDaysInMonth (currentDate (snd (nextMonth (initialState march2025)))) = 30.
Proof. split; vm_compute; reflexivity. Qed.

End PurityFacts.

(** ** Cancelled reservations *)

Section CancelledFacts.
Import JSDate Calendar CalendarExamples.

Lemma selectReservations_noCancelled db from to :
  noCancelled (selectReservations db from to).
Proof.
  apply Forall_forall. intros r H. apply In_selectReservations in H. tauto.
Qed.

Lemma step_noCancelled s e :
  noCancelled (reservations s) -> noCancelled (reservations (step s e)).
Proof.
  intros H. destruct e as [resp | db fails | |]; unfold step, onEvent.
  - unfold loadEquipment. destruct (Supabase.error resp); exact H.
  - unfold reload, reservationsResponse, loadReservations.
    destruct fails; cbn [Supabase.error Supabase.data]; [exact H|].
    apply selectReservations_noCancelled.
  - exact H.
  - exact H.
Qed.

Lemma run_noCancelled es : forall s,
  noCancelled (reservations s) -> noCancelled (reservations (run s es)).
Proof.
  induction es as [| e es IH]; intros s H; [exact H|].
  apply IH, step_noCancelled, H.
Qed.

Lemma grid_cell_reservation s row c r :
  In row (fst (renderGrid s)) -> In c row -> cellReservation c = Some r ->
  In r (reservations s).
Proof.
  rewrite renderGrid_eq. cbn [fst].
  rewrite in_map_iff. intros (item & <- & _).
  unfold renderRow. rewrite in_map_iff. intros (i & <- & _) Hc.
  apply span_cell_anchor in Hc as [Hf _].
  unfold findReservation in Hf. apply find_some in Hf as [Hf _].
  unfold itemReservations in Hf. apply filter_In in Hf. tauto.
Qed.

(** C10.  Whatever the component has been through since it was
    mounted (loads that succeed or fail, changes of month), no cell of
    its grid shows a reservation whose status is [cancelled]. *)
Theorem C10_no_cancelled_reservation_in_grid
        (now : Z) (es : list Event) (row : list Cell) (c : Cell) (r : Reservation) :
  In row (fst (renderGrid (run (initialState now) es))) ->
  In c row ->
  cellReservation c = Some r ->
  status r <> "cancelled"%string.
Proof.
  intros Hrow Hc Hr.
  pose proof (grid_cell_reservation _ _ _ _ Hrow Hc Hr) as Hin.
  pose proof (run_noCancelled es (initialState now) (Forall_nil _)) as Hall.
  unfold noCancelled in Hall. rewrite Forall_forall in Hall. auto.
Qed.

Lemma C10_witness :
  exists row c,
    In row (fst (renderGrid (run (initialState march2025)
                   [EquipmentLoaded {| Supabase.data := Some [line]; Supabase.error := None |};
                    ReservationsLoaded [R1; cancelled] false]))) /\
    In c row /\ cellReservation c = Some R1 /\ status R1 <> "cancelled"%string.
Proof.
  set (es := [EquipmentLoaded {| Supabase.data := Some [line]; Supabase.error := None |};
              ReservationsLoaded [R1; cancelled] false]).
  set (row := renderRow [R1] march2025 line).
  set (c := renderCell [R1] march2025 line 0).
  assert (H1 : In row (fst (renderGrid (run (initialState march2025) es))))
    by (vm_compute; left; reflexivity).
  assert (H2 : In c row) by (vm_compute; left; reflexivity).
  assert (H3 : cellReservation c = Some R1) by (vm_compute; reflexivity).
  exists row, c.
  split; [exact H1 | split; [exact H2 | split; [exact H3 |]]].
  exact (C10_no_cancelled_reservation_in_grid march2025 es row c R1 H1 H2 H3).
Defined.

End CancelledFacts.

(** ** The pipeline board *)

Section PipelineFacts.
Import Supabase Pipeline PipelineExamples.





Lemma step_Notification w :
  step w Notification =
  {| view := {| columns := columns (view w); loading := true;
                error := error (view w); activeId := activeId (view w) |};
     pending := (pending w ++ [(get_pipeline_data, AwaitData Finish)])%list;
     sent := (sent w ++ [get_pipeline_data])%list |}.
Proof. reflexivity. Qed.

(** The answer to a refetch decides the columns on its own. *)
Lemma refetch_answer_sets_columns w k d :
  columns (view (snd (resume (AwaitData k)
                             (Fulfilled {| Supabase.data := d; Supabase.error := None |})
                             w)))
  = snapshotColumns d /\
  loading (view (snd (resume (AwaitData k)
                             (Fulfilled {| Supabase.data := d; Supabase.error := None |})
                             w)))
  = false.
Proof. destruct d as [[[cols |]] |], k; split; reflexivity. Qed.

(** A refetch that fails, by an error in the answer or by a rejected
    call, leaves the columns as they were and raises the error of the
    board. *)
Lemma failed_refetch_keeps_columns w k r :
  match r with
  | Fulfilled {| Supabase.data := _; Supabase.error := None |} => False
  | _ => True
  end ->
  columns (view (snd (resume (AwaitData k) r w))) = columns (view w) /\
  error (view (snd (resume (AwaitData k) r w)))
  = Some "Nie udało się załadować danych" /\
  loading (view (snd (resume (AwaitData k) r w))) = false.
Proof.
  destruct r as [[d [e |]] |], k; intros H; try contradiction; repeat split; reflexivity.
Qed.

(** C8, amended.  A change notification sends one [get_pipeline_data]
    call, which carries no argument, and suspends on it.  When such a call
    is answered without an error, whatever happened to the board in
    between, the columns of the board become the columns of the answer
    (none when the answer has none): the earlier columns play no part.
    When it is answered with an error, or rejected, the columns stay as
    they were and the error of the board is raised.  Either way the
    spinner is lowered. *)
Theorem C8_refetch_replaces_unless_it_fails (w : World) :
  sent (step w Notification) = (sent w ++ [get_pipeline_data])%list /\
  pending (step w Notification)
  = (pending w ++ [(get_pipeline_data, AwaitData Finish)])%list /\
  forall (w' : World) (n : nat) (q : Request) (k : Cont) (r : Settled PipelineData),
    nth_error (pending w') n = Some (q, AwaitData k) ->
    let w'' := step w' (Settle n r) in
    loading (view w'') = false /\
    match r with
    | Fulfilled {| Supabase.data := d; Supabase.error := None |} =>
        columns (view w'') = snapshotColumns d /\ error (view w'') = error (view w')
    | _ =>
        columns (view w'') = columns (view w') /\
        error (view w'') = Some "Nie udało się załadować danych"
    end.
Proof.
  rewrite step_Notification. cbn [sent pending].
  split; [reflexivity|]. split; [reflexivity|].
  intros w' n q k r Hn. cbv zeta. unfold step, onEvent, settle. rewrite Hn.
  destruct r as [[d [e |]] |].
  - destruct k; repeat split; reflexivity.
  - destruct (refetch_answer_sets_columns
                {| view := view w';
                   pending := (firstn n (pending w') ++ skipn (S n) (pending w'))%list;
                   sent := sent w' |} k d) as [Hc Hl].
    split; [exact Hl|]. split; [exact Hc|].
    destruct d as [[[cols |]] |], k; reflexivity.
  - destruct k; repeat split; reflexivity.
Qed.

(** The board of the examples is notified; an answer that carries a
    single empty column replaces its two columns, a rejected call leaves
    them. *)
Lemma C8_witness :
  let fresh := [ {| column_id := "pending"; title := "Oczekujace";
                    reservations := Some [] |} ] in
  let answer := Fulfilled {| Supabase.data := Some {| data_columns := Some fresh |};
                             Supabase.error := None |} in
  columns (view (run boardWorld [Notification; Settle 0 answer])) = fresh /\
  columns (view (run boardWorld [Notification; Settle 0 Rejected])) = board.
Proof.
  cbv zeta.
  destruct (C8_refetch_replaces_unless_it_fails boardWorld) as (_ & _ & Settles).
  split.
  - destruct (Settles (step boardWorld Notification) 0%nat get_pipeline_data Finish
                      (Fulfilled {| Supabase.data :=
                                      Some {| data_columns :=
                                                Some [ {| column_id := "pending";
                                                          title := "Oczekujace";
                                                          reservations := Some [] |} ] |};
                                    Supabase.error := None |}))
      as (_ & Hc & _); [reflexivity | exact Hc].
  - destruct (Settles (step boardWorld Notification) 0%nat get_pipeline_data Finish Rejected)
      as (_ & Hc & _); [reflexivity | exact Hc].
Defined.

(** The board shows [r1] in [pending]; the table changes, the board is
    notified and refetches, and the refetch fails: by a rejected call, or
    by an answer that carries an error next to fresh columns.  Nothing is
    in flight any more and the board still holds the columns it had
    before the notification. *)
Lemma C8_counterexample :
  let fresh := [ {| column_id := "confirmed"; title := "Potwierdzone";
                    reservations := Some [card] |} ] in
  let refused := Fulfilled {| Supabase.data := Some {| data_columns := Some fresh |};
                              Supabase.error := Some "timeout" |} in
  let w1 := run boardWorld [Notification; Settle 0 Rejected] in
  let w2 := run boardWorld [Notification; Settle 0 refused] in
  sent w1 = [get_pipeline_data] /\ pending w1 = [] /\
  columns (view w1) = board /\
  sent w2 = [get_pipeline_data] /\ pending w2 = [] /\
  columns (view w2) = board /\ columns (view w2) <> fresh.
Proof. cbv zeta. repeat split; try reflexivity. discriminate. Qed.

Lemma inFlight_rpc rid w q a :
  inFlight rid (snd (rpc q a w)) =
  (inFlight rid w ++ if isUpdateOf rid q then [q] else [])%list.
Proof.
  unfold inFlight, rpc. cbn [snd pending].
  rewrite map_app, filter_app. cbn. now destruct (isUpdateOf rid q).
Qed.

(** C5, amended.  No transition request is refused locally: pressing a
    status button of the board sends the update at once and adds it to
    the updates of that reservation already on their way, without
    touching the view; the handler of the details view sends its update
    at once as well, and raises [submitting], which disables every status
    button of that view until the request is over. *)
Theorem C5_every_transition_request_is_sent
        (w : World) (cw : CustomerDetails.World) (rid newStatus : string) :
  let w' := step w (StatusButton rid newStatus) in
  let cw' := snd (CustomerDetails.handleStatusChange rid newStatus cw) in
  sent w' = (sent w ++ [update_reservation_pipeline_status rid newStatus])%list /\
  inFlight rid w' =
    (inFlight rid w ++ [update_reservation_pipeline_status rid newStatus])%list /\
  view w' = view w /\
  CustomerDetails.sent cw' =
    (CustomerDetails.sent cw ++
     [CustomerDetails.update_reservation_status rid newStatus
        ("Status zmieniony na: " ++ newStatus)])%list /\
  forall statusId,
    CustomerDetails.buttonDisabled (CustomerDetails.view cw') statusId = true.
Proof.
  cbv zeta. split; [reflexivity|]. split.
  - unfold step, onEvent, handleStatusChange. rewrite inFlight_rpc.
    cbn [isUpdateOf]. now rewrite String.eqb_refl.
  - repeat split; reflexivity.
Qed.

(** Two presses of [confirmed] for [r1] before anything settles: both
    updates are on their way, both were sent, no error was raised. *)
Lemma C5_counterexample :
  let u := update_reservation_pipeline_status "r1" "confirmed" in
  let w := run boardWorld [StatusButton "r1" "confirmed"; StatusButton "r1" "confirmed"] in
  inFlight "r1" w = [u; u] /\ sent w = [u; u] /\ error (view w) = None.
Proof. repeat split; reflexivity. Qed.

End PipelineFacts.

(** ** More of the calendar of [Date] *)

Section MoreDateFacts.
Import JSDate.

Lemma TimeWithinDay_range t : 0 <= TimeWithinDay t < msPerDay.
Proof. unfold TimeWithinDay. apply Z.mod_pos_bound. reflexivity. Qed.

Lemma MakeDate_Day_TimeWithinDay t : MakeDate (Day t) (TimeWithinDay t) = t.
Proof.
  unfold MakeDate, Day, TimeWithinDay.
  rewrite Z.mul_comm. symmetry. apply Z.div_mod. discriminate.
Qed.

Lemma Day_MakeDate D tw : 0 <= tw < msPerDay -> Day (MakeDate D tw) = D.
Proof.
  intros H. unfold Day, MakeDate.
  rewrite Z.add_comm, Z.div_add by discriminate.
  rewrite Z.div_small by assumption. reflexivity.
Qed.

Lemma TimeWithinDay_MakeDate D tw :
  0 <= tw < msPerDay -> TimeWithinDay (MakeDate D tw) = tw.
Proof.
  intros H. unfold TimeWithinDay, MakeDate.
  rewrite Z.add_comm, Z.mod_add by discriminate.
  apply Z.mod_small. assumption.
Qed.

Lemma DayWithinYear_range t :
  0 <= DayWithinYear t < DaysInYear (YearFromTime t).
Proof.
  unfold DayWithinYear, YearFromTime.
  pose proof (YearFromDay_spec (Day t)) as H.
  rewrite DayFromYear_succ in H. lia.
Qed.

Ltac leap_split y :=
  let E := fresh "E" in
  destruct (DaysInYear_cases y) as [E | E]; rewrite ?E in *;
  [ change (365 =? 366) with false in * | change (366 =? 366) with true in * ];
  cbv iota in *.

(** The getters name a day of the calendar: the day of the month is
    within the month, and [MakeDay] leads back to the day number. *)
Lemma getters_of_time t :
  1 <= getDate t <= DaysInMonth (getFullYear t) (getMonth t) /\
  MakeDay (getFullYear t) (getMonth t) (getDate t) = Day t.
Proof.
  pose proof (DayWithinYear_range t) as R.
  pose proof (getMonth_range t) as M.
  rewrite (MakeDay_month _ _ _ M).
  unfold getFullYear, getMonth, getDate, DateFromTime, MonthFromTime, InLeapYear in *.
  assert (D : Day t = DayFromYear (YearFromTime t) + DayWithinYear t)
    by (unfold DayWithinYear; ring).
  rewrite D. clear D M.
  generalize dependent (DayWithinYear t). intros d R.
  generalize (DayFromYear (YearFromTime t)). intros base.
  leap_split (YearFromTime t); cbv beta zeta;
    repeat match goal with
           | |- context [?a <? ?b] => destruct (Z.ltb_spec a b)
           end;
    unfold DaysInMonth, MonthStartDay; rewrite ?E;
    cbn [Z.eqb Pos.eqb]; lia.
Qed.

Lemma getDate_range t : 1 <= getDate t <= 31.
Proof.
  pose proof (getters_of_time t) as [H _].
  pose proof (DaysInMonth_range (getFullYear t) (getMonth t)). lia.
Qed.

(** [MakeDay] with any month number: the year absorbs the twelves. *)
Lemma MakeDay_normal y month d :
  MakeDay y month d = MakeDay (y + month / 12) (month mod 12) d.
Proof.
  unfold MakeDay.
  assert (H : 0 <= month mod 12 < 12) by (apply Z.mod_pos_bound; reflexivity).
  rewrite (Z.div_small (month mod 12) 12) by exact H.
  rewrite (Z.mod_small (month mod 12) 12) by exact H.
  now rewrite Z.add_0_r.
Qed.

Lemma civil_of_time_any y month d t :
  1 <= d <= DaysInMonth (y + month / 12) (month mod 12) ->
  Day t = MakeDay y month d ->
  getFullYear t = y + month / 12 /\ getMonth t = month mod 12 /\ getDate t = d.
Proof.
  intros Hd HD. rewrite MakeDay_normal in HD.
  apply civil_of_time; auto.
  assert (H : 0 <= month mod 12 < 12) by (apply Z.mod_pos_bound; reflexivity).
  lia.
Qed.

(** A day number past the end of the month runs into the next month. *)
Lemma MakeDay_overflow y month d :
  MakeDay y month d =
  MakeDay y (month + 1) (d - DaysInMonth (y + month / 12) (month mod 12)).
Proof.
  assert (H : 0 <= month mod 12 < 12) by (apply Z.mod_pos_bound; reflexivity).
  assert (N : MakeDay y (month + 1) 0
              = MakeDay y month (DaysInMonth (y + month / 12) (month mod 12))).
  { rewrite (MakeDay_normal y month).
    rewrite <- MakeDay_next_month by lia.
    rewrite (MakeDay_normal y (month + 1)).
    rewrite (MakeDay_normal (y + month / 12) (month mod 12 + 1)).
    f_equal.
    - rewrite <- Z.add_assoc. f_equal. divmod.
    - divmod. }
  unfold MakeDay in *. lia.
Qed.

End MoreDateFacts.

(** ** The month buttons *)

Section NavigationFacts.
Import JSDate Calendar CalendarView CalendarExamples.

(** [setMonth] when the day of the month exists in the target month. *)
Lemma setMonth_civil t month :
  getDate t <= DaysInMonth (getFullYear t + month / 12) (month mod 12) ->
  getFullYear (setMonth t month) = getFullYear t + month / 12 /\
  getMonth (setMonth t month) = month mod 12 /\
  getDate (setMonth t month) = getDate t /\
  TimeWithinDay (setMonth t month) = TimeWithinDay t.
Proof.
  intros H. pose proof (getDate_range t) as R.
  pose proof (TimeWithinDay_range t) as W.
  assert (D : Day (setMonth t month) = MakeDay (getFullYear t) month (getDate t)).
  { unfold setMonth. rewrite Day_MakeDate by exact W. reflexivity. }
  destruct (civil_of_time_any (getFullYear t) month (getDate t) (setMonth t month))
    as (Hy & Hm & Hd); [lia | exact D |].
  repeat split; auto.
  unfold setMonth. apply TimeWithinDay_MakeDate. exact W.
Qed.

Lemma nextMonth_date s :
  currentDate (snd (nextMonth s)) = setMonth (currentDate s) (getMonth (currentDate s) + 1).
Proof. reflexivity. Qed.

Lemma prevMonth_date s :
  currentDate (snd (prevMonth s)) = setMonth (currentDate s) (getMonth (currentDate s) - 1).
Proof. reflexivity. Qed.

Lemma monthAfter_eq y m : 0 <= m <= 11 ->
  monthAfter y m = (y + (m + 1) / 12, (m + 1) mod 12).
Proof.
  intros H. unfold monthAfter. destruct (Z.eqb_spec m 11) as [-> | N].
  - reflexivity.
  - f_equal; divmod.
Qed.

Lemma monthBefore_eq y m : 0 <= m <= 11 ->
  monthBefore y m = (y + (m - 1) / 12, (m - 1) mod 12).
Proof.
  intros H. unfold monthBefore. destruct (Z.eqb_spec m 0) as [-> | N].
  - reflexivity.
  - f_equal; divmod.
Qed.

(** X7.  Each month button keeps the day of the month and the time of day
    when the month it leads to has that day; the year changes across
    December and January. *)
Theorem X7_month_buttons_keep_the_day (s : State) :
  let cd := currentDate s in
  let next := currentDate (snd (nextMonth s)) in
  let prev := currentDate (snd (prevMonth s)) in
  let after := monthAfter (getFullYear cd) (getMonth cd) in
  let before := monthBefore (getFullYear cd) (getMonth cd) in
  (getDate cd <= DaysInMonth (fst after) (snd after) ->
   getFullYear next = fst after /\ getMonth next = snd after /\
   getDate next = getDate cd /\ TimeWithinDay next = TimeWithinDay cd) /\
  (getDate cd <= DaysInMonth (fst before) (snd before) ->
   getFullYear prev = fst before /\ getMonth prev = snd before /\
   getDate prev = getDate cd /\ TimeWithinDay prev = TimeWithinDay cd).
Proof.
  cbv zeta. rewrite nextMonth_date, prevMonth_date.
  rewrite monthAfter_eq, monthBefore_eq by apply getMonth_range.
  cbn [fst snd]. split; apply setMonth_civil.
Qed.

Lemma setMonth_back t month month' :
  getDate t <= DaysInMonth (getFullYear t + month / 12) (month mod 12) ->
  month' = getMonth t - 12 * (month / 12) ->
  setMonth (setMonth t month) month' = t.
Proof.
  intros H E.
  destruct (setMonth_civil t month H) as (Hy & Hm & Hd & Hw).
  unfold setMonth at 1. fold (getFullYear (setMonth t month)).
  fold (getDate (setMonth t month)).
  rewrite Hy, Hd, Hw.
  rewrite MakeDay_normal.
  pose proof (getMonth_range t) as M.
  replace (getFullYear t + month / 12 + month' / 12) with (getFullYear t) by divmod.
  replace (month' mod 12) with (getMonth t) by divmod.
  destruct (getters_of_time t) as [_ ->].
  apply MakeDate_Day_TimeWithinDay.
Qed.

Lemma state_eta s d :
  d = currentDate s ->
  {| equipment := equipment s; reservations := reservations s;
     currentDate := d; loading := loading s |} = s.
Proof. intros ->. now destruct s. Qed.

(** X8.  Forth and back: when the neighbouring month has the day of the
    month on display, pressing the other button afterwards restores the
    state. *)
Theorem X8_month_buttons_undo_each_other (s : State) :
  let cd := currentDate s in
  let after := monthAfter (getFullYear cd) (getMonth cd) in
  let before := monthBefore (getFullYear cd) (getMonth cd) in
  (getDate cd <= DaysInMonth (fst after) (snd after) ->
   snd (prevMonth (snd (nextMonth s))) = s) /\
  (getDate cd <= DaysInMonth (fst before) (snd before) ->
   snd (nextMonth (snd (prevMonth s))) = s).
Proof.
  cbv zeta. pose proof (getMonth_range (currentDate s)) as M.
  rewrite monthAfter_eq, monthBefore_eq by exact M. cbn [fst snd].
  split; intros H;
    unfold prevMonth, nextMonth, bind, gets, setCurrentDate;
    cbn [snd fst currentDate equipment reservations loading];
    apply state_eta;
    destruct (setMonth_civil _ _ H) as (_ & Hm & _);
    rewrite Hm; (apply setMonth_back; [exact H|]); divmod.
Qed.

(** X9.  A day of the month that the next month does not have runs over:
    the next-month button then lands in the month after the next, on the
    day left over. *)
Theorem X9_nextMonth_overflows (s : State) :
  let cd := currentDate s in
  let cd' := currentDate (snd (nextMonth s)) in
  let after := monthAfter (getFullYear cd) (getMonth cd) in
  let after2 := monthAfter (fst after) (snd after) in
  DaysInMonth (fst after) (snd after) < getDate cd ->
  getFullYear cd' = fst after2 /\ getMonth cd' = snd after2 /\
  getDate cd' = getDate cd - DaysInMonth (fst after) (snd after).
Proof.
  cbv zeta. rewrite nextMonth_date.
  pose proof (getMonth_range (currentDate s)) as M.
  rewrite monthAfter_eq by exact M. cbn [fst snd].
  assert (M1 : 0 <= (getMonth (currentDate s) + 1) mod 12 <= 11).
  { assert (0 <= (getMonth (currentDate s) + 1) mod 12 < 12)
      by (apply Z.mod_pos_bound; reflexivity). lia. }
  rewrite monthAfter_eq by exact M1. cbn [fst snd].
  set (cd := currentDate s) in *. set (m := getMonth cd) in *.
  set (y := getFullYear cd).
  intros H.
  pose proof (getDate_range cd) as R.
  pose proof (DaysInMonth_range (y + (m + 1) / 12) ((m + 1) mod 12)) as R1.
  pose proof (TimeWithinDay_range cd) as W.
  assert (D : Day (setMonth cd (m + 1))
              = MakeDay y (m + 1 + 1)
                  (getDate cd - DaysInMonth (y + (m + 1) / 12) ((m + 1) mod 12))).
  { unfold setMonth. rewrite Day_MakeDate by exact W.
    fold (getFullYear cd) (getDate cd). fold y.
    apply MakeDay_overflow. }
  assert (Ey : y + (m + 1) / 12 + ((m + 1) mod 12 + 1) / 12 = y + (m + 1 + 1) / 12)
    by (clearbody m; divmod).
  assert (Em : ((m + 1) mod 12 + 1) mod 12 = (m + 1 + 1) mod 12)
    by (clearbody m; divmod).
  rewrite Ey, Em.
  pose proof (DaysInMonth_range (y + (m + 1 + 1) / 12) ((m + 1 + 1) mod 12)) as R2.
  apply (civil_of_time_any y (m + 1 + 1)); [|exact D].
  clearbody y m. seal. lia.
Qed.

End NavigationFacts.

(** ** More on the grid of the calendar *)

Section GridFacts.
Import JSDate Calendar CalendarView CalendarExamples.

(** X1.  [getDaysInMonth] returns the length of the month on display, the
    month of the year the [Date] constructor takes for the year of
    [currentDate]: a number from 28 to 31. *)
Theorem X1_getDaysInMonth_is_month_length (cd : Z) :
  getDaysInMonth cd = DaysInMonth (fullYear (getFullYear cd)) (getMonth cd) /\
  28 <= getDaysInMonth cd <= 31.
Proof.
  rewrite getDaysInMonth_eq. split; [reflexivity | apply monthLength_range].
Qed.

(** X3.  What the query returns needs no clipping: for a reservation
    considered for a line, the visible span begins on the day of its own
    start and ends on the day of its own end, and when [start <= end]
    these days lie in the row. *)
Theorem X3_considered_spans_unclipped
        (db : list Reservation) (cd : Z) (item : Equipment) (r : Reservation) :
  In r (considered db cd item) ->
  let sp := getReservationSpan r (startOfMonth cd) (endOfMonth cd) in
  startDay sp = getDate (start_date r) /\
  endDay sp = getDate (end_date r) /\
  (start_date r <= end_date r ->
   1 <= startDay sp /\ startDay sp <= endDay sp /\ endDay sp <= getDaysInMonth cd).
Proof.
  intros Hin. apply In_considered in Hin as (_ & _ & [Hs He] & _). cbv zeta.
  destruct (span_fields r (startOfMonth cd) (endOfMonth cd)) as (-> & -> & _).
  destruct (Z.ltb_spec (start_date r) (startOfMonth cd)); [seal; lia|].
  destruct (Z.ltb_spec (endOfMonth cd) (end_date r)); [seal; lia|].
  split; [reflexivity|]. split; [reflexivity|].
  intros Hle.
  pose proof (span_in_month r cd Hle) as S. cbv zeta in S.
  destruct (span_fields r (startOfMonth cd) (endOfMonth cd)) as (Es & Ee & _).
  rewrite Es, Ee in S.
  destruct (Z.ltb_spec (start_date r) (startOfMonth cd)); [seal; lia|].
  destruct (Z.ltb_spec (endOfMonth cd) (end_date r)); [seal; lia|].
  apply S. split; seal; lia.
Qed.

(** X4.  The grid does not ask whether a reservation meets the month: a
    reservation of the line that was over before the month began, when it
    is first in the list, takes the cells from day 1 to the day of the
    month of its end. *)
Theorem X4_reservation_before_month_takes_day_one
        (rs : list Reservation) (cd : Z) (item : Equipment) (r : Reservation) :
  includesLine r item = true ->
  start_date r <= end_date r ->
  end_date r < startOfMonth cd ->
  let n := getDate (end_date r) in
  nth_error (renderRow (r :: rs) cd item) 0 =
  Some (SpanCell r n (getReservationContent r (1240 / getDaysInMonth cd) (1 <? n))
                 (1 <? n)).
Proof.
  intros Hl Hle He. cbv zeta.
  pose proof (monthLength_range cd) as R. pose proof (getDaysInMonth_eq cd) as G.
  pose proof (getDate_range (end_date r)) as Rn.
  pose proof (window_ordered cd) as W.
  destruct (span_fields r (startOfMonth cd) (endOfMonth cd)) as (Es & Ee & Esp).
  assert (Es' : startDay (getReservationSpan r (startOfMonth cd) (endOfMonth cd)) = 1).
  { rewrite Es. destruct (Z.ltb_spec (start_date r) (startOfMonth cd)); [reflexivity|].
    seal. lia. }
  assert (Ee' : endDay (getReservationSpan r (startOfMonth cd) (endOfMonth cd))
                = getDate (end_date r)).
  { rewrite Ee. destruct (Z.ltb_spec (endOfMonth cd) (end_date r)); [|reflexivity].
    seal. lia. }
  rewrite Es', Ee' in Esp.
  change 0%nat with (Z.to_nat (1 - 1)).
  rewrite nth_error_renderRow_day by (seal; lia).
  rewrite renderCell_eq.
  unfold itemReservations. cbn [filter]. rewrite Hl.
  unfold findReservation. cbn [find]. unfold covers. cbv zeta.
  rewrite Es', Ee'.
  change (1 - 1 + 1) with 1. change (1 <=? 1) with true. cbn [andb].
  destruct (Z.leb_spec 1 (getDate (end_date r))); [|lia].
  cbv iota beta. rewrite Es', Esp.
  change (1 =? 1) with true. cbv iota.
  replace (getDate (end_date r) - 1 + 1) with (getDate (end_date r)) by ring.
  reflexivity.
Qed.

End GridFacts.

Section LengthFacts.
Import JSDate Calendar CalendarView CalendarExamples.

Lemma ceilDiv_bounds a b : 0 < b -> (ceilDiv a b - 1) * b < a <= ceilDiv a b * b.
Proof. intros H. unfold ceilDiv. divmod. Qed.

Lemma ceilDiv_unique a b n : 0 < b -> (n - 1) * b < a <= n * b -> ceilDiv a b = n.
Proof. intros H R. pose proof (ceilDiv_bounds a b H). nia. Qed.

(** X5.  The [days] of the labels is the number of started periods of 24
    hours between start and end; the full label is used exactly when
    more than 72 hours elapse and the one-day label exactly when at most
    24 hours do. *)
Theorem X5_elapsedDays_counts_started_days (s e : Z) :
  (elapsedDays s e - 1) * 86400000 < e - s <= elapsedDays s e * 86400000 /\
  (4 <= elapsedDays s e <-> 3 * 86400000 < e - s) /\
  (elapsedDays s e <= 1 <-> e - s <= 86400000).
Proof.
  unfold elapsedDays, getTime. change (1000 * 60 * 60 * 24) with 86400000.
  pose proof (ceilDiv_bounds (e - s) 86400000 ltac:(lia)) as B.
  generalize dependent (ceilDiv (e - s) 86400000). intros n B. lia.
Qed.

(** X6.  For a reservation inside the month, the [days] of the labels is
    the span of the grid when the time of day of the end is later than
    that of the start, and one less otherwise (so for dates without a
    time of day it is always one less). *)
Theorem X6_elapsedDays_against_span (r : Reservation) (cd : Z) :
  start_date r <= end_date r ->
  within r (startOfMonth cd) (endOfMonth cd) ->
  elapsedDays (start_date r) (end_date r) =
  span (getReservationSpan r (startOfMonth cd) (endOfMonth cd))
  - (if TimeWithinDay (start_date r) <? TimeWithinDay (end_date r) then 0 else 1).
Proof.
  intros Hle [Hs He].
  pose proof (window_ordered cd) as W.
  destruct (span_fields r (startOfMonth cd) (endOfMonth cd)) as (Es & Ee & ->).
  rewrite Es, Ee.
  destruct (Z.ltb_spec (start_date r) (startOfMonth cd)); [seal; lia|].
  destruct (Z.ltb_spec (endOfMonth cd) (end_date r)); [seal; lia|].
  rewrite (getDate_in_month cd (start_date r)) by (seal; lia).
  rewrite (getDate_in_month cd (end_date r)) by (seal; lia).
  unfold elapsedDays, getTime. change (1000 * 60 * 60 * 24) with msPerDay.
  rewrite <- (MakeDate_Day_TimeWithinDay (start_date r)) at 1.
  rewrite <- (MakeDate_Day_TimeWithinDay (end_date r)) at 1.
  pose proof (TimeWithinDay_range (start_date r)) as Ws.
  pose proof (TimeWithinDay_range (end_date r)) as We.
  pose proof (Day_mono _ _ Hle) as Hd.
  unfold MakeDate.
  generalize dependent (TimeWithinDay (start_date r)).
  generalize dependent (TimeWithinDay (end_date r)).
  generalize dependent (Day (start_date r)).
  generalize dependent (Day (end_date r)).
  generalize (Day (startOfMonth cd)).
  intros d0 de ds Hd te We ts Ws.
  apply ceilDiv_unique; [reflexivity|].
  unfold msPerDay in *.
  destruct (Z.ltb_spec ts te); lia.
Qed.

(** ** The spinner of the calendar *)

(** X10.  The spinner of the calendar is shown until the first load of
    the reservations that succeeds, and never again afterwards: failed
    loads, loads of the equipment and the month buttons do not touch
    it. *)
Theorem X10_spinner_until_first_successful_load (now : Z) (es : list Event) :
  (forall s, loading (run s es) = loading s && negb (existsb isSuccessfulLoad es)) /\
  loading (run (initialState now) es) = negb (existsb isSuccessfulLoad es).
Proof.
  assert (G : forall s,
             loading (run s es) = loading s && negb (existsb isSuccessfulLoad es)).
  { induction es as [| e es IH]; intros s; cbn [run fold_left existsb].
    - now rewrite andb_true_r.
    - fold (run (step s e) es). rewrite IH.
      destruct e as [resp | db fails | |]; cbn [isSuccessfulLoad orb].
      + unfold step, onEvent, loadEquipment.
        destruct (Supabase.error resp); reflexivity.
      + destruct fails; cbn [negb orb]; [reflexivity|].
        cbn. now rewrite andb_false_r.
      + reflexivity.
      + reflexivity. }
  split; [exact G|]. rewrite G. reflexivity.
Qed.

(** ** The header *)

Lemma nth_error_headerDays cd day :
  1 <= day <= getDaysInMonth cd ->
  nth_error (headerDays cd) (Z.to_nat (day - 1)) = Some day.
Proof.
  intros H. unfold headerDays. rewrite nth_error_map, nth_error_indices.
  - cbn [option_map]. rewrite Z2Nat.id by lia. f_equal. ring.
  - seal. lia.
Qed.

Lemma Day_header_date cd day :
  Day (mkDate (getFullYear cd) (getMonth cd) day) = Day (startOfMonth cd) + day - 1.
Proof.
  rewrite Day_startOfMonth. unfold mkDate.
  rewrite Day_MakeDate by (split; [reflexivity | reflexivity]).
  rewrite !MakeDay_month by apply getMonth_range. ring.
Qed.

(** X11.  The header has one cell per day of the month; the date built for
    cell [day] is that day of the month, and its label is defined: the
    entry of [DAYS], Monday first, of its day of the week. *)
Theorem X11_header_labels_every_day (cd : Z) :
  List.length (renderHeader cd) = Z.to_nat (getDaysInMonth cd) /\
  forall day, 1 <= day <= getDaysInMonth cd ->
    getDate (mkDate (getFullYear cd) (getMonth cd) day) = day /\
    exists name,
      nth_error DAYS (Z.to_nat ((Day (startOfMonth cd) + day + 2) mod 7)) = Some name /\
      nth_error (renderHeader cd) (Z.to_nat (day - 1)) = Some (day, Some name).
Proof.
  split.
  - unfold renderHeader, headerDays, indices.
    now rewrite !length_map, length_seq.
  - intros day Hd. split.
    + rewrite (getDate_in_month cd).
      * rewrite Day_header_date. ring.
      * rewrite getDaysInMonth_eq in Hd.
        pose proof (Day_header_date cd day) as D.
        unfold mkDate in *. rewrite Day_MakeDate in D by (split; reflexivity).
        rewrite endOfMonth_eq, startOfMonth_eq.
        rewrite Day_startOfMonth in D.
        unfold MakeDate. rewrite D. unfold msPerDay. seal. lia.
    + assert (R : 0 <= (Day (startOfMonth cd) + day + 2) mod 7 < 7)
        by (apply Z.mod_pos_bound; reflexivity).
      assert (I : (if getDay (mkDate (getFullYear cd) (getMonth cd) day) =? 0 then 6
                   else getDay (mkDate (getFullYear cd) (getMonth cd) day) - 1)
                  = (Day (startOfMonth cd) + day + 2) mod 7).
      { unfold getDay, WeekDay. rewrite Day_header_date.
        generalize (Day (startOfMonth cd)). intros d0.
        destruct (Z.eqb_spec ((d0 + day - 1 + 4) mod 7) 0); divmod. }
      destruct (nth_error DAYS (Z.to_nat ((Day (startOfMonth cd) + day + 2) mod 7)))
        as [name |] eqn:E.
      * exists name. split; [reflexivity|].
        unfold renderHeader. rewrite nth_error_map, nth_error_headerDays by exact Hd.
        cbn [option_map]. unfold headerCell. cbv zeta. rewrite I, E. reflexivity.
      * exfalso. apply nth_error_None in E. cbn [DAYS List.length] in E. lia.
Qed.

End LengthFacts.

(** ** Merged cells tile the row *)

Section Tiling.
Variable R : Type.
Variable occ : nat -> option R.
Variables sd ed : R -> Z.
Variable n : nat.
Variable w : nat -> Z.

Hypothesis occ_covers :
  forall i r, occ i = Some r -> sd r <= Z.of_nat i + 1 <= ed r.
Hypothesis occ_placed :
  forall i r, occ i = Some r ->
  forall j, sd r <= Z.of_nat j + 1 <= ed r -> occ j = Some r.
Hypothesis occ_inside :
  forall i r, occ i = Some r -> 1 <= sd r /\ ed r <= Z.of_nat n.
Hypothesis width :
  forall i, w i = match occ i with
                  | None => 1
                  | Some r => if Z.of_nat i + 1 =? sd r then ed r - sd r + 1 else 0
                  end.

Lemma sumFrom_app p j k :
  sumFrom w p (j + k) = sumFrom w p j + sumFrom w (p + j) k.
Proof.
  revert p. induction j as [| j IH]; intros p; cbn [sumFrom Nat.add].
  - now rewrite Nat.add_0_r.
  - rewrite IH. replace (S p + j)%nat with (p + S j)%nat by lia. ring.
Qed.

Lemma sumFrom_zero p k :
  (forall i, (p <= i < p + k)%nat -> w i = 0) -> sumFrom w p k = 0.
Proof.
  revert p. induction k as [| k IH]; intros p H; cbn [sumFrom]; [reflexivity|].
  rewrite H by lia. rewrite IH; [reflexivity|]. intros i Hi. apply H. lia.
Qed.

(** From a position that is not inside a merged cell to the end. *)
Lemma tiling_from : forall k p,
  (p + k = n)%nat ->
  (forall r, occ p = Some r -> sd r = Z.of_nat p + 1) ->
  sumFrom w p k = Z.of_nat k.
Proof.
  induction k as [k IH] using (well_founded_induction lt_wf).
  intros p Hn Hb. destruct k as [| k']; [reflexivity|].
  cbn [sumFrom]. rewrite width. destruct (occ p) as [r |] eqn:Ep.
  - pose proof (Hb r eq_refl) as Hs.
    pose proof (occ_covers p r Ep) as Hc.
    pose proof (occ_inside p r Ep) as [_ He].
    rewrite Hs, Z.eqb_refl.
    set (j := Z.to_nat (ed r - sd r)).
    assert (Hj : (j <= k')%nat) by lia.
    replace k' with (j + (k' - j))%nat at 1 by lia.
    rewrite sumFrom_app.
    rewrite sumFrom_zero.
    + rewrite IH; try lia.
      intros r' Er'.
      pose proof (occ_covers _ r' Er') as Hc'.
      destruct (Z.le_gt_cases (sd r') (ed r)) as [Hle | Hgt]; [|lia].
      exfalso.
      assert (E1 : occ (S p + j - 1) = Some r') by (apply (occ_placed _ r' Er'); lia).
      assert (E2 : occ (S p + j - 1) = Some r) by (apply (occ_placed _ r Ep); lia).
      rewrite E1 in E2. injection E2 as ->. lia.
    + intros i Hi. rewrite width.
      rewrite (occ_placed p r Ep i) by lia.
      destruct (Z.eqb_spec (Z.of_nat i + 1) (sd r)); [lia | reflexivity].
  - rewrite IH; try lia.
    intros r' Er'.
    pose proof (occ_covers _ r' Er') as Hc'.
    destruct (Z.le_gt_cases (sd r') (Z.of_nat p + 1)) as [Hle | Hgt]; [|lia].
    exfalso.
    assert (E1 : occ p = Some r') by (apply (occ_placed _ r' Er'); lia).
    congruence.
Qed.

Lemma tiling : sumFrom w 0 n = Z.of_nat n.
Proof.
  apply tiling_from; [reflexivity|].
  intros r Er. pose proof (occ_covers _ _ Er). pose proof (occ_inside _ _ Er). lia.
Qed.

End Tiling.

Section RowTiling.
Import JSDate Calendar CalendarView CalendarExamples.

Lemma rowColumns_sumFrom f p k :
  rowColumns (map f (map Z.of_nat (seq p k))) =
  sumFrom (fun i => cellColumns (f (Z.of_nat i))) p k.
Proof.
  revert p. induction k as [| k IH]; intros p; cbn [seq map sumFrom]; [reflexivity|].
  unfold rowColumns in *. cbn [fold_right]. now rewrite IH.
Qed.

Lemma found_is_listed rs ws we d r :
  findReservation rs ws we d = Some r -> In r rs /\ covers r ws we d = true.
Proof. unfold findReservation. intros H. now apply find_some in H. Qed.

Lemma covers_iff r ws we d :
  covers r ws we d = true <->
  startDay (getReservationSpan r ws we) <= d + 1 <= endDay (getReservationSpan r ws we).
Proof. unfold covers. cbv zeta. rewrite andb_true_iff, !Z.leb_le. tauto. Qed.

(** X2.  When every reservation of a line has [start <= end], meets the
    month and is placed, the cells of the row (merged cells with their
    span, [null] cells with nothing, empty cells with one column) take
    exactly as many columns as the month has days. *)
Theorem X2_placed_rows_fill_the_month
        (rs : list Reservation) (cd : Z) (item : Equipment) :
  (forall r, In r (itemReservations rs item) ->
             start_date r <= end_date r /\
             intersects r (startOfMonth cd) (endOfMonth cd) /\
             placed rs cd item r) ->
  rowColumns (renderRow rs cd item) = getDaysInMonth cd.
Proof.
  intros H.
  pose proof (monthLength_range cd) as R. rewrite <- getDaysInMonth_eq in R.
  unfold renderRow, indices. rewrite rowColumns_sumFrom.
  set (occ := fun i : nat =>
                findReservation (itemReservations rs item) (startOfMonth cd)
                                (endOfMonth cd) (Z.of_nat i)).
  set (sd := fun r => startDay (getReservationSpan r (startOfMonth cd) (endOfMonth cd))).
  set (ed := fun r => endDay (getReservationSpan r (startOfMonth cd) (endOfMonth cd))).
  rewrite (tiling Reservation occ sd ed (Z.to_nat (getDaysInMonth cd))).
  - apply Z2Nat.id. lia.
  - intros i r E. apply found_is_listed in E as [_ E]. now apply covers_iff in E.
  - intros i r E j Hj. apply found_is_listed in E as [E _].
    destruct (H r E) as (_ & _ & P). apply P. exact Hj.
  - intros i r E. apply found_is_listed in E as [E _].
    destruct (H r E) as (Hle & Hi & _).
    destruct (span_in_month r cd Hle Hi) as (H1 & H2 & H3).
    unfold sd, ed. rewrite Z2Nat.id by lia. lia.
  - intros i. rewrite renderCell_eq. fold (occ i).
    destruct (occ i) as [r |]; [|reflexivity].
    cbv zeta. fold (sd r).
    destruct (span_fields r (startOfMonth cd) (endOfMonth cd)) as (_ & _ & Esp).
    destruct (Z.of_nat i + 1 =? sd r); [|reflexivity].
    cbn [cellColumns]. exact Esp.
Qed.

End RowTiling.

(** ** More on the pipeline board *)

Section BoardFacts.
Import Supabase Pipeline PipelineExamples.

(** X12.  The card found for an id carries that id and lies in a column of
    the board; no card is found exactly when no column holds the id. *)
Theorem X12_findReservation_finds_the_card (cols : list PipelineColumn) (rid : string) :
  (forall r, findReservation cols rid = Some r ->
             id r = rid /\
             exists c rs, In c cols /\ reservations c = Some rs /\ In r rs) /\
  (findReservation cols rid = None <->
   forall c rs r, In c cols -> reservations c = Some rs -> In r rs -> id r <> rid).
Proof.
  induction cols as [| c cols [IHs IHn]]; cbn [findReservation].
  - split; [discriminate|]. split; [intros _ c rs r [] | reflexivity].
  - destruct (reservations c) as [rs |] eqn:Ec.
    + destruct (find (fun r => (id r =? rid)%string) rs) as [r0 |] eqn:Ef.
      * split.
        -- intros r [= <-]. apply find_some in Ef as [Hin Hid].
           apply String.eqb_eq in Hid. split; [exact Hid|].
           exists c, rs. split; [now left | auto].
        -- split; [discriminate|]. intros H. exfalso.
           apply find_some in Ef as [Hin Hid]. apply String.eqb_eq in Hid.
           exact (H c rs r0 (or_introl eq_refl) Ec Hin Hid).
      * split.
        -- intros r Hr. destruct (IHs r Hr) as (Hid & c' & rs' & Hc & Hrs & Hin).
           split; [exact Hid|]. exists c', rs'. split; [now right | auto].
        -- rewrite IHn. split.
           ++ intros H c' rs' r [<- | Hc] Hrs Hin.
              ** rewrite Ec in Hrs. injection Hrs as <-.
                 apply (find_none _ _ Ef) in Hin. now apply String.eqb_neq.
              ** eapply H; eauto.
           ++ intros H c' rs' r Hc. apply H. now right.
    + split.
      * intros r Hr. destruct (IHs r Hr) as (Hid & c' & rs' & Hc & Hrs & Hin).
        split; [exact Hid|]. exists c', rs'. split; [now right | auto].
      * rewrite IHn. split.
        -- intros H c' rs' r [<- | Hc] Hrs Hin; [congruence | eapply H; eauto].
        -- intros H c' rs' r Hc. apply H. now right.
Qed.

Lemma step_Settle w n r q a :
  nth_error (pending w) n = Some (q, a) ->
  step w (Settle n r) =
  snd (resume a r {| view := view w;
                     pending := (firstn n (pending w) ++ skipn (S n) (pending w))%list;
                     sent := sent w |}).
Proof. intros H. unfold step, onEvent, settle. now rewrite H. Qed.

(** X13.  What follows a status update of the board: a fulfilled call,
    with or without an error in its response, starts a reload and shows
    no error; only a rejected call shows the error, and then nothing is
    reloaded. *)
Theorem X13_update_response_is_not_inspected
        (w : World) (n : nat) (q : Request) (k : Cont)
        (resp : Response PipelineData) :
  nth_error (pending w) n = Some (q, AwaitUpdate k) ->
  let ok := step w (Settle n (Fulfilled resp)) in
  let ko := step w (Settle n Rejected) in
  sent ok = (sent w ++ [get_pipeline_data])%list /\
  error (view ok) = error (view w) /\
  loading (view ok) = true /\
  columns (view ok) = columns (view w) /\
  sent ko = sent w /\
  error (view ko) = Some "Nie udało się zaktualizować statusu" /\
  columns (view ko) = columns (view w).
Proof.
  intros H. cbv zeta. rewrite !(step_Settle _ _ _ _ _ H).
  destruct k; repeat split; reflexivity.
Qed.

(** X14.  The pin of a drag is removed when the chain of its request ends
    (the update rejected, or the reload answered in any way), and not
    when the update is fulfilled. *)
Theorem X14_drag_pin_removed_at_end_of_chain
        (w : World) (n : nat) (q : Request) :
  (nth_error (pending w) n = Some (q, AwaitUpdate ClearActive) ->
   activeId (view (step w (Settle n Rejected))) = None /\
   forall resp,
     let w' := step w (Settle n (Fulfilled resp)) in
     activeId (view w') = activeId (view w) /\
     pending w' = (firstn n (pending w) ++ skipn (S n) (pending w)
                   ++ [(get_pipeline_data, AwaitData ClearActive)])%list) /\
  (nth_error (pending w) n = Some (q, AwaitData ClearActive) ->
   forall r, activeId (view (step w (Settle n r))) = None).
Proof.
  split; intros H.
  - rewrite !(step_Settle _ _ _ _ _ H). split; [reflexivity|].
    intros resp. cbv zeta. rewrite (step_Settle _ _ _ _ _ H).
    split; [reflexivity|]. cbn. now rewrite <- app_assoc.
  - intros r. rewrite (step_Settle _ _ _ _ _ H).
    destruct r as [[[[[cols |]] |] [e |]] |]; reflexivity.
Qed.

(** Once the board shows an error it shows one for good. *)
Lemma resume_keeps_error a r w :
  error (view w) <> None -> error (view (snd (resume a r w))) <> None.
Proof.
  intros H.
  destruct a as [k | k], k, r as [[[[[cols |]] |] [e |]] |];
    cbn; (exact H || discriminate).
Qed.

Lemma step_keeps_error w e :
  error (view w) <> None -> error (view (step w e)) <> None.
Proof.
  intros H. destruct e as [| | a | a over | rid st | n r].
  - exact H.
  - exact H.
  - exact H.
  - unfold step, onEvent, handleDragEnd.
    destruct over as [st |]; [|exact H]. cbn.
    destruct (findReservation (columns (view w)) a) as [r |]; [|exact H].
    destruct (negb (id r =? st)%string); exact H.
  - exact H.
  - unfold step, onEvent, settle.
    destruct (nth_error (pending w) n) as [[q a] |]; [|exact H].
    apply resume_keeps_error. exact H.
Qed.

(** X15.  Once the board shows an error it shows one for good: no event
    clears it. *)
Theorem X15_board_error_is_permanent (w : World) (es : list Event) :
  error (view w) <> None -> error (view (run w es)) <> None.
Proof.
  revert w. induction es as [| e es IH]; intros w H; [exact H|].
  apply IH, step_keeps_error, H.
Qed.

End BoardFacts.

(** ** More on the details view *)

Section DetailsFacts.
Import Supabase CustomerDetails.



End DetailsFacts.

(** ** The comment form *)

Section CommentFacts.
Import Supabase Comments.
Variable trim : string -> string.



End CommentFacts.

(** ** The lockout of the login form *)

Section LoginFacts.
Import AdminLogin.

Lemma ceilDiv_pos a b : 0 < b -> 0 < a -> 1 <= ceilDiv a b.
Proof. intros. unfold ceilDiv. divmod. Qed.

Lemma ceilDiv_le a b n : 0 < b -> a <= n * b -> ceilDiv a b <= n.
Proof. intros. unfold ceilDiv. Z.div_mod_to_equations. nia. Qed.

Lemma ceilDiv_nonpos a b : 0 < b -> a <= 0 -> ceilDiv a b <= 0.
Proof. intros. unfold ceilDiv. apply Z.opp_nonpos_nonneg, Z.div_pos; lia. Qed.

(** X18.  While the form is locked a submission reaches no server and
    changes neither the count of failures nor the lockout: it only shows
    the minutes left, computed from a second reading of the clock.  The
    number shown is at least 1 when that reading is still before the end
    of the lockout, and 0 or less when it is not; it is at most 15 when
    the lockout ends at most 15 minutes after the first reading and the
    clock did not go back between the two. *)
Theorem X18_locked_submission_is_refused
        (tCheck tMinutes tSettle : Z) (o : Outcome) (w : World) :
  locked tCheck (view w) = true ->
  let w' := handleSubmit tCheck tMinutes tSettle o w in
  signInCalls w' = signInCalls w /\
  loggedIn w' = loggedIn w /\
  stored w' = stored w /\
  loginAttempts (view w') = loginAttempts (view w) /\
  lockoutUntil (view w') = lockoutUntil (view w) /\
  error (view w') =
    "Zbyt wiele nieudanych prób. Spróbuj ponownie za "
    ++ show (minutesLeft tMinutes (view w)) ++ " minut." /\
  exists l, lockoutUntil (view w) = Some l /\ tCheck < l /\
    (tMinutes < l -> 1 <= minutesLeft tMinutes (view w)) /\
    (l <= tMinutes -> minutesLeft tMinutes (view w) <= 0) /\
    (tCheck <= tMinutes -> l <= tCheck + LOCKOUT_DURATION ->
     minutesLeft tMinutes (view w) <= 15).
Proof.
  intros L. cbv zeta. unfold handleSubmit.
  change (locked tCheck (view (setError "" w))) with (locked tCheck (view w)).
  rewrite L.
  repeat (split; [reflexivity|]).
  unfold locked, minutesLeft in *.
  destruct (lockoutUntil (view w)) as [l |]; [|discriminate].
  apply andb_true_iff in L as [_ L]. apply Z.ltb_lt in L.
  exists l. split; [reflexivity|]. split; [exact L|]. split; [|split].
  - intros H. apply ceilDiv_pos; lia.
  - intros H. apply ceilDiv_nonpos; lia.
  - intros H1 H2. apply ceilDiv_le; [lia|]. unfold LOCKOUT_DURATION in H2. lia.
Qed.

(** The two readings of the clock apart: the test sees the form locked
    one millisecond before the lockout ends, the minutes are computed as
    it ends, and the message announces 0 minutes. *)
Example locked_with_no_minute_left :
  error (view (handleSubmit 599999 600000 600000 SignedIn (MoreExamples.lockedUntil 600000)))
  = "Zbyt wiele nieudanych prób. Spróbuj ponownie za 0 minut.".
Proof. reflexivity. Qed.

(** One failed attempt of a form that is not locked. *)
Lemma failed_attempt tSubmit tMinutes tSettle o w :
  locked tSubmit (view w) = false -> failing o = true ->
  let a := loginAttempts (view w) + 1 in
  let w' := handleSubmit tSubmit tMinutes tSettle o w in
  signInCalls w' = signInCalls w + 1 /\
  loggedIn w' = loggedIn w /\
  loginAttempts (view w') = a /\
  isLoading (view w') = false /\
  error (view w') = failureMessage o /\
  (a < 5 -> lockoutUntil (view w') = lockoutUntil (view w)) /\
  (5 <= a -> lockoutUntil (view w') = Some (tSettle + LOCKOUT_DURATION) /\
             stored w' = Some (tSettle + LOCKOUT_DURATION)).
Proof.
  intros L F. cbv zeta. unfold handleSubmit.
  change (locked tSubmit (view (setError "" w))) with (locked tSubmit (view w)).
  rewrite L.
  destruct o; try discriminate; unfold handleLoginFailure, MAX_LOGIN_ATTEMPTS;
    cbv zeta;
    destruct (Z.leb_spec 5 (loginAttempts (view w) + 1));
    repeat split; try reflexivity; intros; lia.
Qed.

(** X19.  Fewer than five failures in a row, on a form that was never
    locked, lock nothing; the failure that brings the count to five or
    more locks the form for 15 minutes from the moment it was refused, in
    the state and in [localStorage], whenever it happens: the count is
    not reset when a lockout runs out. *)
Theorem X19_five_failures_lock_for_fifteen_minutes :
  (forall (l : list (Z * Z * Z * Outcome)) (w : World),
     lockoutUntil (view w) = None ->
     forallb (fun a => failing (snd a)) l = true ->
     loginAttempts (view w) + Z.of_nat (List.length l) < 5 ->
     let w' := attempts w l in
     lockoutUntil (view w') = None /\
     loginAttempts (view w') = loginAttempts (view w) + Z.of_nat (List.length l) /\
     signInCalls w' = signInCalls w + Z.of_nat (List.length l)) /\
  (forall (w : World) (tSubmit tMinutes tSettle : Z) (o : Outcome),
     locked tSubmit (view w) = false -> failing o = true ->
     4 <= loginAttempts (view w) -> 0 <= tSettle ->
     let w' := handleSubmit tSubmit tMinutes tSettle o w in
     stored w' = Some (tSettle + 900000) /\
     forall t, t < tSettle + 900000 -> locked t (view w') = true).
Proof.
  split.
  - induction l as [| [[[t1 t2] t3] o] l IH]; intros w Hn Hf Hlt; cbv zeta.
    + cbn [attempts fold_left List.length Z.of_nat]. repeat split; [exact Hn | lia | lia].
    + cbn [forallb snd] in Hf. apply andb_true_iff in Hf as [Fo Fl].
      cbn [List.length] in Hlt.
      assert (L : locked t1 (view w) = false) by (unfold locked; now rewrite Hn).
      destruct (failed_attempt t1 t2 t3 o w L Fo) as (Hc & _ & Ha & _ & _ & Hk & _).
      cbn [attempts fold_left]. fold (attempts (handleSubmit t1 t2 t3 o w) l).
      destruct (IH (handleSubmit t1 t2 t3 o w)) as (I1 & I2 & I3).
      * rewrite Hk by lia. exact Hn.
      * exact Fl.
      * lia.
      * rewrite I2, I3, Ha, Hc. cbn [List.length]. repeat split; [exact I1 | lia | lia].
  - intros w t1 t2 t3 o L F Ha Ht. cbv zeta.
    destruct (failed_attempt t1 t2 t3 o w L F) as (_ & _ & _ & _ & _ & _ & Hk).
    destruct Hk as [Hl Hs]; [lia|].
    split; [exact Hs|]. intros t Hlt. unfold locked. rewrite Hl.
    unfold LOCKOUT_DURATION.
    apply andb_true_iff. split.
    + apply negb_true_iff, Z.eqb_neq. lia.
    + apply Z.ltb_lt. exact Hlt.
Qed.

(** X20.  A lockout outlives a reload of the page and ends on time: after
    the failure that locks the form, a page mounted again before the 15
    minutes are over is locked until they are; mounted later, it removes
    the stored time and is open.  Either way the count of failures starts
    again from zero. *)
Theorem X20_lockout_survives_reload
        (w : World) (tSubmit tMinutes tSettle now : Z) (o : Outcome) :
  locked tSubmit (view w) = false -> failing o = true ->
  4 <= loginAttempts (view w) -> 0 <= tSettle ->
  let until := tSettle + 900000 in
  let w' := mount now
              (initialWorld (stored (handleSubmit tSubmit tMinutes tSettle o w))) in
  loginAttempts (view w') = 0 /\
  (now < until ->
   stored w' = Some until /\ forall t, locked t (view w') = (t <? until)) /\
  (until <= now ->
   stored w' = None /\ forall t, locked t (view w') = false).
Proof.
  intros L F Ha Ht. cbv zeta.
  destruct (failed_attempt tSubmit tMinutes tSettle o w L F)
    as (_ & _ & _ & _ & _ & _ & Hk).
  destruct Hk as [_ Hs]; [lia|]. rewrite Hs.
  unfold LOCKOUT_DURATION. change (15 * 60 * 1000) with 900000.
  unfold mount, initialWorld. cbn [stored].
  destruct (Z.ltb_spec now (tSettle + 900000)).
  - split; [reflexivity|]. split; [|lia]. intros _. split; [reflexivity|].
    intros t. unfold locked. cbn.
    destruct (Z.eqb_spec (tSettle + 900000) 0); [lia | reflexivity].
  - split; [reflexivity|]. split; [lia|]. intros _. split; reflexivity.
Qed.

End LoginFacts.

(** ** The theorems at work *)

Section CalendarWitnesses.
Import JSDate Calendar CalendarView CalendarExamples MoreExamples.

Lemma X2_witness :
  rowColumns (renderRow [R1] march2025 line) = getDaysInMonth march2025.
Proof.
  apply X2_placed_rows_fill_the_month.
  intros r Hin. change (itemReservations [R1] line) with [R1] in Hin.
  destruct Hin as [<- | []].
  split; [vm_compute; discriminate|].
  split; [split; vm_compute; discriminate|].
  apply placed_head. reflexivity.
Defined.

(** With a double booking the cells take more columns than the month
    has days. *)
Example overlapping_rows_overflow :
  rowColumns (renderRow [R2; R1] march2025 line) = 34 /\
  getDaysInMonth march2025 = 31.
Proof. split; vm_compute; reflexivity. Qed.

Lemma X3_witness :
  startDay (getReservationSpan R1 (startOfMonth march2025) (endOfMonth march2025))
  = getDate (start_date R1).
Proof.
  apply (X3_considered_spans_unclipped [R1; cancelled; straddling] march2025 line R1).
  vm_compute. left. reflexivity.
Defined.

Lemma X4_witness :
  nth_error (renderRow [february; R1] march2025 line) 0 =
  Some (SpanCell february (getDate (end_date february))
          (getReservationContent february (1240 / getDaysInMonth march2025)
                                 (1 <? getDate (end_date february)))
          (1 <? getDate (end_date february))).
Proof.
  apply (X4_reservation_before_month_takes_day_one [R1] march2025 line february).
  - reflexivity.
  - vm_compute. discriminate.
  - vm_compute. reflexivity.
Defined.

(** February's reservation shows in March on days 1 to 12, and hides
    the one of 1 to 5 March. *)
Example stale_reservation_in_march :
  map cellReservation (firstn 13 (renderRow [february; R1] march2025 line)) =
  [Some february; None; None; None; None; None; None; None; None; None; None; None; None]
  /\ nth_error (renderRow [february; R1] march2025 line) 12 = Some EmptyCell.
Proof. split; vm_compute; reflexivity. Qed.

Lemma X6_witness :
  elapsedDays (start_date timed) (end_date timed) =
  span (getReservationSpan timed (startOfMonth march2025) (endOfMonth march2025))
  - (if TimeWithinDay (start_date timed) <? TimeWithinDay (end_date timed)
     then 0 else 1).
Proof.
  apply (X6_elapsedDays_against_span timed march2025).
  - vm_compute. discriminate.
  - split; vm_compute; discriminate.
Defined.

Example timed_and_dated_labels :
  elapsedDays (start_date timed) (end_date timed) = 2 /\
  span (getReservationSpan timed (startOfMonth march2025) (endOfMonth march2025)) = 2 /\
  elapsedDays (start_date twoDays) (end_date twoDays) = 1 /\
  span (getReservationSpan twoDays (startOfMonth march2025) (endOfMonth march2025)) = 2.
Proof. repeat split; vm_compute; reflexivity. Qed.

Lemma X7_witness :
  getMonth (currentDate (snd (nextMonth (showing march2025)))) = 3 /\
  getDate (currentDate (snd (nextMonth (showing march2025)))) = 10 /\
  getMonth (currentDate (snd (prevMonth (showing march2025)))) = 1.
Proof.
  destruct (X7_month_buttons_keep_the_day (showing march2025)) as [Next Prev].
  destruct Next as (_ & Hm & Hd & _); [vm_compute; discriminate|].
  destruct Prev as (_ & Hm' & _); [vm_compute; discriminate|].
  split; [|split].
  - etransitivity; [exact Hm | vm_compute; reflexivity].
  - etransitivity; [exact Hd | vm_compute; reflexivity].
  - etransitivity; [exact Hm' | vm_compute; reflexivity].
Defined.

Lemma X8_witness :
  snd (prevMonth (snd (nextMonth (showing march2025)))) = showing march2025.
Proof.
  apply (X8_month_buttons_undo_each_other (showing march2025)).
  vm_compute. discriminate.
Defined.

Lemma X9_witness :
  getMonth (currentDate (snd (nextMonth (showing jan31)))) = 2 /\
  getDate (currentDate (snd (nextMonth (showing jan31)))) = 3.
Proof.
  destruct (X9_nextMonth_overflows (showing jan31)) as (_ & Hm & Hd).
  - vm_compute. reflexivity.
  - split.
    + etransitivity; [exact Hm | vm_compute; reflexivity].
    + etransitivity; [exact Hd | vm_compute; reflexivity].
Defined.

(** From 31 January, forth and back ends on 3 February. *)
Example forth_and_back_from_jan31 :
  let back := currentDate (snd (prevMonth (snd (nextMonth (showing jan31))))) in
  (getMonth back, getDate back) = (1, 3).
Proof. vm_compute. reflexivity. Qed.

Lemma X11_witness :
  nth_error (renderHeader march2025) 0 = Some (1, Some "SOB") /\
  getDate (mkDate (getFullYear march2025) (getMonth march2025) 1) = 1.
Proof.
  destruct (X11_header_labels_every_day march2025) as [_ H].
  destruct (H 1) as (Hd & name & Hn & Hc); [split; vm_compute; discriminate|].
  split; [|exact Hd].
  etransitivity; [exact Hc|].
  assert (E : Some name = Some "SOB").
  { rewrite <- Hn. vm_compute. reflexivity. }
  injection E as ->. reflexivity.
Defined.

End CalendarWitnesses.

Section BoardWitnesses.
Import Supabase Pipeline PipelineExamples MoreExamples.

Lemma X12_witness :
  id card = "r1" /\ findReservation board "r9" = None.
Proof.
  destruct (X12_findReservation_finds_the_card board "r1") as [Found _].
  destruct (X12_findReservation_finds_the_card board "r9") as [_ [_ Missing]].
  split.
  - apply (Found card). reflexivity.
  - apply Missing. intros c rs r Hc Hrs Hin.
    destruct Hc as [<- | [<- | []]]; injection Hrs as <-.
    + destruct Hin as [<- | []]. discriminate.
    + destruct Hin.
Defined.

Lemma X13_witness :
  let refused := {| Supabase.data := None; Supabase.error := Some "not allowed" |} in
  sent (step pressedWorld (Settle 0 (Fulfilled refused)))
  = [update_reservation_pipeline_status "r1" "confirmed"; get_pipeline_data] /\
  error (view (step pressedWorld (Settle 0 (Fulfilled refused)))) = None.
Proof.
  cbv zeta.
  destruct (X13_update_response_is_not_inspected
              pressedWorld 0 (update_reservation_pipeline_status "r1" "confirmed") Finish
              {| Supabase.data := None; Supabase.error := Some "not allowed" |})
    as (Hs & He & _).
  - reflexivity.
  - split; [exact Hs | exact He].
Defined.

Lemma X14_witness :
  activeId (view droppedWorld) = Some "r1" /\
  activeId (view (step droppedWorld (Settle 0 Rejected))) = None.
Proof.
  split; [reflexivity|].
  destruct (X14_drag_pin_removed_at_end_of_chain
              droppedWorld 0 (update_reservation_pipeline_status "r1" "confirmed"))
    as [Update _].
  apply Update. reflexivity.
Defined.

Lemma X15_witness :
  error (view (run (step pressedWorld (Settle 0 Rejected))
                   [Notification;
                    Settle 0 (Fulfilled {| Supabase.data := Some {| data_columns := Some board |};
                                           Supabase.error := None |})]))
  <> None.
Proof.
  apply X15_board_error_is_permanent. discriminate.
Defined.

End BoardWitnesses.

Section DetailsWitnesses.
Import Supabase MoreExamples.



End DetailsWitnesses.

Section LoginWitnesses.
Import AdminLogin MoreExamples.

Lemma X18_witness :
  signInCalls (handleSubmit 1000 1001 2000 SignedIn (lockedUntil 600000)) = 5 /\
  1 <= minutesLeft 1001 (view (lockedUntil 600000)) <= 15.
Proof.
  destruct (X18_locked_submission_is_refused 1000 1001 2000 SignedIn (lockedUntil 600000))
    as (Hc & _ & _ & _ & _ & _ & l & Hl & _ & Lo & _ & Hi).
  - reflexivity.
  - injection Hl as <-. split; [exact Hc|]. split.
    + apply Lo. reflexivity.
    + apply Hi; vm_compute; discriminate.
Defined.

Lemma X19_witness :
  lockoutUntil (view (attempts (initialWorld None)
                        [(10, 10, 20, InvalidCredentials); (30, 30, 40, NotAdmin);
                         (50, 50, 60, OtherError); (70, 70, 80, AuditFailed)])) = None /\
  locked 500000 (view (handleSubmit 90 90 100 InvalidCredentials fourFailures)) = true.
Proof.
  destruct X19_five_failures_lock_for_fifteen_minutes as [Few Fifth].
  split.
  - apply (Few [(10, 10, 20, InvalidCredentials); (30, 30, 40, NotAdmin);
                (50, 50, 60, OtherError); (70, 70, 80, AuditFailed)] (initialWorld None));
      reflexivity.
  - apply (Fifth fourFailures 90 90 100 InvalidCredentials);
      first [reflexivity | vm_compute; discriminate].
Defined.

Lemma X20_witness :
  locked 500000
    (view (mount 200000
             (initialWorld (stored (handleSubmit 90 90 100 InvalidCredentials fourFailures)))))
  = true.
Proof.
  destruct (X20_lockout_survives_reload fourFailures 90 90 100 200000 InvalidCredentials)
    as (_ & Before & _);
    [reflexivity | reflexivity | vm_compute; discriminate | vm_compute; discriminate |].
  destruct Before as [_ Hl]; [reflexivity|].
  rewrite Hl. reflexivity.
Defined.

End LoginWitnesses.
